(** * Wallpaper Publisher: a shallow embedding of [wallpaper_publisher.py]

    The development follows the Python source function by function:
    - [PyStr]    the [str] methods the program calls ([strip], [startswith],
                 slices, [split], [join]) and [pathlib]'s [suffix];
    - [Env]      [load_environment] over the process environment;
    - [Form]     the widgets and attributes of [WallpaperPublisher] as a
                 record, with the handlers as state transformers;
    - [Ai]       the reading of the model's reply, [_update_metadata_ui], and
                 the callbacks the worker threads hand to the interactive
                 thread;
    - [Publish]  [_publish_wallpaper_thread], the two remote services being
                 explicit outcomes: it returns the remote calls it made and
                 the callbacks it scheduled;
    - [Session]  the events of the interactive thread;
    - [Spec]     the notions the statements use; [Samples] concrete inputs.
    The facts and the theorems come after the definitions.

    A Python [str] is modelled as a [string] whose characters are the code
    points below 256. A worker thread is modelled by what it calls and
    schedules, reading the form as it is when the action is triggered; the
    one place where the order of the two threads shows, the late reading of
    an [except] variable by a scheduled callback, is an explicit outcome. *)

From Stdlib Require Import Ascii String List Bool Arith NArith ZArith DecimalString Lia.
From stdpp Require Import base strings gmap.

Set Warnings "-register-all".

Local Open Scope nat_scope.

(** ** Python strings *)

Module PyStr.

(** [str.isspace] on a single character (code points below 256). *)
Definition isspace (c : ascii) : bool :=
  let n := N_of_ascii c in
  ((9 <=? n) && (n <=? 13) || (28 <=? n) && (n <=? 31)
   || (n =? 32) || (n =? 133) || (n =? 160))%N.

(** Truth value of a [str]: the empty string is false. *)
Definition truthy (s : string) : bool :=
  match s with EmptyString => false | String _ _ => true end.

(** Removal of the leading, respectively trailing, characters that
    satisfy [p]. *)
Fixpoint lstrip_by (p : ascii -> bool) (s : string) : string :=
  match s with
  | EmptyString => EmptyString
  | String c r => if p c then lstrip_by p r else s
  end.

Fixpoint rstrip_by (p : ascii -> bool) (s : string) : string :=
  match s with
  | EmptyString => EmptyString
  | String c r =>
      match rstrip_by p r with
      | EmptyString => if p c then EmptyString else String c EmptyString
      | r' => String c r'
      end
  end.

Definition strip_by (p : ascii -> bool) (s : string) : string :=
  rstrip_by p (lstrip_by p s).

(** [s.strip()] *)
Definition strip (s : string) : string := strip_by isspace s.

(** [s.strip(ch)] for a one-character argument. *)
Definition strip_char (ch : ascii) (s : string) : string :=
  strip_by (fun c => Ascii.eqb c ch) s.

(** [s.startswith(p)] *)
Definition startswith (p s : string) : bool := String.prefix p s.

(** [s[a:-b]] for non-negative literals [a] and [b > 0]: the stop index is
    [len(s) - b] clipped at 0, and the slice is empty when it does not lie
    after the start. *)
Definition slice (a b : nat) (s : string) : string :=
  String.substring a (String.length s - b - a) s.

(** [s.split(sep)] for a one-character separator: every occurrence cuts,
    so the result always has one more element than there are separators. *)
Fixpoint split (sep : ascii) (s : string) : list string :=
  match s with
  | EmptyString => [EmptyString]
  | String c r =>
      if Ascii.eqb c sep then EmptyString :: split sep r
      else match split sep r with
           | [] => [String c EmptyString]
           | w :: ws => String c w :: ws
           end
  end.

(** [sep.join(l)] *)
Definition join (sep : string) (l : list string) : string :=
  String.concat sep l.

(** Every character of [s] satisfies [p]. *)
Fixpoint all_chars (p : ascii -> bool) (s : string) : bool :=
  match s with
  | EmptyString => true
  | String c r => p c && all_chars p r
  end.

(** The characters of a string, as [list(s)] or iteration over it gives. *)
Fixpoint chars (s : string) : list string :=
  match s with
  | EmptyString => []
  | String c r => String c EmptyString :: chars r
  end.

(** [s[1:]] *)
Definition tail (s : string) : string :=
  match s with EmptyString => EmptyString | String _ r => r end.

(** [s.rfind(ch)]: index of the last occurrence, [None] for -1. *)
Fixpoint rfind (ch : ascii) (s : string) : option nat :=
  match s with
  | EmptyString => None
  | String c r =>
      match rfind ch r with
      | Some i => Some (S i)
      | None => if Ascii.eqb c ch then Some 0 else None
      end
  end.

(** [pathlib.PurePath(p).name] for a path with forward slashes: the last
    component, empty and [.] components being dropped by the parser. *)
Definition path_name (p : string) : string :=
  List.last
    (List.filter (fun c => negb (String.eqb c "") && negb (String.eqb c "."))
                 (split "/" p))
    "".

(** [pathlib.PurePath(p).suffix]: the name from its last dot, unless that
    dot is the first or the last character of the name. *)
Definition suffix (p : string) : string :=
  let name := path_name p in
  match rfind "." name with
  | Some i =>
      if (0 <? i) && (i <? String.length name - 1)
      then String.substring i (String.length name - i) name
      else ""
  | None => ""
  end.

(** [os.path.basename(p)]: what follows the last slash. *)
Definition basename (p : string) : string := List.last (split "/" p) "".

End PyStr.

(** ** Python values, as [json.loads] returns them *)

Inductive pyval : Type :=
| PyNone
| PyBool (b : bool)
| PyInt (z : Z)
| PyFloat (repr : string)
| PyStr (s : string)
| PyList (l : list pyval)
| PyDict (d : list (string * pyval)).

(** [type(v).__name__] *)
Definition type_name (v : pyval) : string :=
  match v with
  | PyNone => "NoneType"
  | PyBool _ => "bool"
  | PyInt _ => "int"
  | PyFloat _ => "float"
  | PyStr _ => "str"
  | PyList _ => "list"
  | PyDict _ => "dict"
  end.

(** [d.get(k, default)] on the items of a dict. *)
Fixpoint dict_get (d : list (string * pyval)) (k : string) (default : pyval) : pyval :=
  match d with
  | [] => default
  | (k', v) :: d' => if String.eqb k' k then v else dict_get d' k default
  end.

(** ** The environment loader *)

Module Env.

(** [os.getenv(var)]: [None] when the variable is not set. *)
Definition getenv (environ : gmap string string) (var : string) : option string :=
  environ !! var.

(** [os.getenv(var, default)] *)
Definition getenv_default (environ : gmap string string) (var default : string) : string :=
  match environ !! var with Some v => v | None => default end.

(** Truth value of what [os.getenv] returns: [None] and [""] are false. *)
Definition truthy_opt (o : option string) : bool :=
  match o with Some s => PyStr.truthy s | None => false end.

(** [load_dotenv(path)] with its default [override=False]: the values of
    the file are added for the variables the process does not have yet. *)
Definition load_dotenv (file environ : gmap string string) : gmap string string :=
  environ ∪ file.

Definition required_vars : list string :=
  [ "NEXT_PUBLIC_SUPABASE_URL";
    "NEXT_PUBLIC_SUPABASE_ANON_KEY";
    "R2_ACCOUNT_ID";
    "R2_ACCESS_KEY_ID";
    "R2_SECRET_ACCESS_KEY";
    "R2_BUCKET_NAME" ].

Definition missing_vars (environ : gmap string string) : list string :=
  List.filter (fun var => negb (truthy_opt (getenv environ var))) required_vars.

(** The outcome of [load_environment]: either an error dialog followed by
    [sys.exit(1)], or the environment in force and [self.gemini_api_key]. *)
Inductive startup : Type :=
| Exit (message : string)
| Loaded (environ : gmap string string) (gemini_api_key : string).

(** [dotenv] is the content of [.env.local], [None] when the file does
    not exist; [environ] is [os.environ] when the program starts. *)
Definition load_environment
    (dotenv : option (gmap string string)) (environ : gmap string string) : startup :=
  match dotenv with
  | None => Exit ".env.local file not found!"
  | Some file =>
      let environ' := load_dotenv file environ in
      match missing_vars environ' with
      | [] =>
          Loaded environ'
            (PyStr.strip_char "034"%char (getenv_default environ' "GEMINI_API_KEY" ""))
      | missing =>
          Exit ("Missing environment variables: " +:+ PyStr.join ", " missing)
      end
  end.

End Env.

(** ** The form: widgets and attributes of [WallpaperPublisher] *)

Module Form.

Inductive btn_state : Type := NORMAL | DISABLED.

(** The thumbnail [ImageTk.PhotoImage] built from the file at [path]. *)
Inductive photo : Type := Thumbnail (path : string).

Inductive dialog : Type :=
| ShowError (title message : string)
| ShowInfo (title message : string).

Record form : Type := {
  selected_image_path : option string;  (* [None] until a file is chosen *)
  preview_image : option photo;  (* the [PhotoImage] kept alive for the preview *)
  generated_metadata : pyval;  (* last value handed to [_update_metadata_ui] *)
  supabase_client : bool;  (* [self.supabase_client is not None] *)
  r2_client : bool;  (* [self.r2_client is not None] *)
  image_path_label : string * string;  (* text and foreground *)
  preview_label : option photo * string;  (* image and text *)
  gemini_key_entry : string;  (* content of the key entry *)
  title_entry : string;  (* content of the title entry *)
  category_var : string;  (* the combobox variable *)
  tags_entry : string;  (* content of the tags entry *)
  description_text : string;  (* content of the text widget, without the final newline Tk keeps *)
  progress_bar : bool;  (* running *)
  status_label : string * string;  (* text and foreground *)
  generate_btn : btn_state;  (* state of the generate button *)
  publish_btn : btn_state;  (* state of the publish button *)
  dialogs : list dialog  (* message boxes shown so far, oldest first *)
}.

Definition set_selected_image_path (v : option string) (f : form) : form :=
  {| selected_image_path := v; preview_image := preview_image f;
     generated_metadata := generated_metadata f;
     supabase_client := supabase_client f; r2_client := r2_client f;
     image_path_label := image_path_label f;
     preview_label := preview_label f;
     gemini_key_entry := gemini_key_entry f; title_entry := title_entry f;
     category_var := category_var f; tags_entry := tags_entry f;
     description_text := description_text f; progress_bar := progress_bar f;
     status_label := status_label f; generate_btn := generate_btn f;
     publish_btn := publish_btn f; dialogs := dialogs f |}.

Definition set_preview_image (v : option photo) (f : form) : form :=
  {| selected_image_path := selected_image_path f; preview_image := v;
     generated_metadata := generated_metadata f;
     supabase_client := supabase_client f; r2_client := r2_client f;
     image_path_label := image_path_label f;
     preview_label := preview_label f;
     gemini_key_entry := gemini_key_entry f; title_entry := title_entry f;
     category_var := category_var f; tags_entry := tags_entry f;
     description_text := description_text f; progress_bar := progress_bar f;
     status_label := status_label f; generate_btn := generate_btn f;
     publish_btn := publish_btn f; dialogs := dialogs f |}.

Definition set_generated_metadata (v : pyval) (f : form) : form :=
  {| selected_image_path := selected_image_path f;
     preview_image := preview_image f; generated_metadata := v;
     supabase_client := supabase_client f; r2_client := r2_client f;
     image_path_label := image_path_label f;
     preview_label := preview_label f;
     gemini_key_entry := gemini_key_entry f; title_entry := title_entry f;
     category_var := category_var f; tags_entry := tags_entry f;
     description_text := description_text f; progress_bar := progress_bar f;
     status_label := status_label f; generate_btn := generate_btn f;
     publish_btn := publish_btn f; dialogs := dialogs f |}.

Definition set_supabase_client (v : bool) (f : form) : form :=
  {| selected_image_path := selected_image_path f;
     preview_image := preview_image f;
     generated_metadata := generated_metadata f; supabase_client := v;
     r2_client := r2_client f; image_path_label := image_path_label f;
     preview_label := preview_label f;
     gemini_key_entry := gemini_key_entry f; title_entry := title_entry f;
     category_var := category_var f; tags_entry := tags_entry f;
     description_text := description_text f; progress_bar := progress_bar f;
     status_label := status_label f; generate_btn := generate_btn f;
     publish_btn := publish_btn f; dialogs := dialogs f |}.

Definition set_r2_client (v : bool) (f : form) : form :=
  {| selected_image_path := selected_image_path f;
     preview_image := preview_image f;
     generated_metadata := generated_metadata f;
     supabase_client := supabase_client f; r2_client := v;
     image_path_label := image_path_label f;
     preview_label := preview_label f;
     gemini_key_entry := gemini_key_entry f; title_entry := title_entry f;
     category_var := category_var f; tags_entry := tags_entry f;
     description_text := description_text f; progress_bar := progress_bar f;
     status_label := status_label f; generate_btn := generate_btn f;
     publish_btn := publish_btn f; dialogs := dialogs f |}.

Definition set_image_path_label (v : string * string) (f : form) : form :=
  {| selected_image_path := selected_image_path f;
     preview_image := preview_image f;
     generated_metadata := generated_metadata f;
     supabase_client := supabase_client f; r2_client := r2_client f;
     image_path_label := v; preview_label := preview_label f;
     gemini_key_entry := gemini_key_entry f; title_entry := title_entry f;
     category_var := category_var f; tags_entry := tags_entry f;
     description_text := description_text f; progress_bar := progress_bar f;
     status_label := status_label f; generate_btn := generate_btn f;
     publish_btn := publish_btn f; dialogs := dialogs f |}.

Definition set_preview_label (v : option photo * string) (f : form) : form :=
  {| selected_image_path := selected_image_path f;
     preview_image := preview_image f;
     generated_metadata := generated_metadata f;
     supabase_client := supabase_client f; r2_client := r2_client f;
     image_path_label := image_path_label f; preview_label := v;
     gemini_key_entry := gemini_key_entry f; title_entry := title_entry f;
     category_var := category_var f; tags_entry := tags_entry f;
     description_text := description_text f; progress_bar := progress_bar f;
     status_label := status_label f; generate_btn := generate_btn f;
     publish_btn := publish_btn f; dialogs := dialogs f |}.

Definition set_gemini_key_entry (v : string) (f : form) : form :=
  {| selected_image_path := selected_image_path f;
     preview_image := preview_image f;
     generated_metadata := generated_metadata f;
     supabase_client := supabase_client f; r2_client := r2_client f;
     image_path_label := image_path_label f;
     preview_label := preview_label f; gemini_key_entry := v;
     title_entry := title_entry f; category_var := category_var f;
     tags_entry := tags_entry f; description_text := description_text f;
     progress_bar := progress_bar f; status_label := status_label f;
     generate_btn := generate_btn f; publish_btn := publish_btn f;
     dialogs := dialogs f |}.

Definition set_title_entry (v : string) (f : form) : form :=
  {| selected_image_path := selected_image_path f;
     preview_image := preview_image f;
     generated_metadata := generated_metadata f;
     supabase_client := supabase_client f; r2_client := r2_client f;
     image_path_label := image_path_label f;
     preview_label := preview_label f;
     gemini_key_entry := gemini_key_entry f; title_entry := v;
     category_var := category_var f; tags_entry := tags_entry f;
     description_text := description_text f; progress_bar := progress_bar f;
     status_label := status_label f; generate_btn := generate_btn f;
     publish_btn := publish_btn f; dialogs := dialogs f |}.

Definition set_category_var (v : string) (f : form) : form :=
  {| selected_image_path := selected_image_path f;
     preview_image := preview_image f;
     generated_metadata := generated_metadata f;
     supabase_client := supabase_client f; r2_client := r2_client f;
     image_path_label := image_path_label f;
     preview_label := preview_label f;
     gemini_key_entry := gemini_key_entry f; title_entry := title_entry f;
     category_var := v; tags_entry := tags_entry f;
     description_text := description_text f; progress_bar := progress_bar f;
     status_label := status_label f; generate_btn := generate_btn f;
     publish_btn := publish_btn f; dialogs := dialogs f |}.

Definition set_tags_entry (v : string) (f : form) : form :=
  {| selected_image_path := selected_image_path f;
     preview_image := preview_image f;
     generated_metadata := generated_metadata f;
     supabase_client := supabase_client f; r2_client := r2_client f;
     image_path_label := image_path_label f;
     preview_label := preview_label f;
     gemini_key_entry := gemini_key_entry f; title_entry := title_entry f;
     category_var := category_var f; tags_entry := v;
     description_text := description_text f; progress_bar := progress_bar f;
     status_label := status_label f; generate_btn := generate_btn f;
     publish_btn := publish_btn f; dialogs := dialogs f |}.

Definition set_description_text (v : string) (f : form) : form :=
  {| selected_image_path := selected_image_path f;
     preview_image := preview_image f;
     generated_metadata := generated_metadata f;
     supabase_client := supabase_client f; r2_client := r2_client f;
     image_path_label := image_path_label f;
     preview_label := preview_label f;
     gemini_key_entry := gemini_key_entry f; title_entry := title_entry f;
     category_var := category_var f; tags_entry := tags_entry f;
     description_text := v; progress_bar := progress_bar f;
     status_label := status_label f; generate_btn := generate_btn f;
     publish_btn := publish_btn f; dialogs := dialogs f |}.

Definition set_progress_bar (v : bool) (f : form) : form :=
  {| selected_image_path := selected_image_path f;
     preview_image := preview_image f;
     generated_metadata := generated_metadata f;
     supabase_client := supabase_client f; r2_client := r2_client f;
     image_path_label := image_path_label f;
     preview_label := preview_label f;
     gemini_key_entry := gemini_key_entry f; title_entry := title_entry f;
     category_var := category_var f; tags_entry := tags_entry f;
     description_text := description_text f; progress_bar := v;
     status_label := status_label f; generate_btn := generate_btn f;
     publish_btn := publish_btn f; dialogs := dialogs f |}.

Definition set_status_label (v : string * string) (f : form) : form :=
  {| selected_image_path := selected_image_path f;
     preview_image := preview_image f;
     generated_metadata := generated_metadata f;
     supabase_client := supabase_client f; r2_client := r2_client f;
     image_path_label := image_path_label f;
     preview_label := preview_label f;
     gemini_key_entry := gemini_key_entry f; title_entry := title_entry f;
     category_var := category_var f; tags_entry := tags_entry f;
     description_text := description_text f; progress_bar := progress_bar f;
     status_label := v; generate_btn := generate_btn f;
     publish_btn := publish_btn f; dialogs := dialogs f |}.

Definition set_generate_btn (v : btn_state) (f : form) : form :=
  {| selected_image_path := selected_image_path f;
     preview_image := preview_image f;
     generated_metadata := generated_metadata f;
     supabase_client := supabase_client f; r2_client := r2_client f;
     image_path_label := image_path_label f;
     preview_label := preview_label f;
     gemini_key_entry := gemini_key_entry f; title_entry := title_entry f;
     category_var := category_var f; tags_entry := tags_entry f;
     description_text := description_text f; progress_bar := progress_bar f;
     status_label := status_label f; generate_btn := v;
     publish_btn := publish_btn f; dialogs := dialogs f |}.

Definition set_publish_btn (v : btn_state) (f : form) : form :=
  {| selected_image_path := selected_image_path f;
     preview_image := preview_image f;
     generated_metadata := generated_metadata f;
     supabase_client := supabase_client f; r2_client := r2_client f;
     image_path_label := image_path_label f;
     preview_label := preview_label f;
     gemini_key_entry := gemini_key_entry f; title_entry := title_entry f;
     category_var := category_var f; tags_entry := tags_entry f;
     description_text := description_text f; progress_bar := progress_bar f;
     status_label := status_label f; generate_btn := generate_btn f;
     publish_btn := v; dialogs := dialogs f |}.

Definition set_dialogs (v : list dialog) (f : form) : form :=
  {| selected_image_path := selected_image_path f;
     preview_image := preview_image f;
     generated_metadata := generated_metadata f;
     supabase_client := supabase_client f; r2_client := r2_client f;
     image_path_label := image_path_label f;
     preview_label := preview_label f;
     gemini_key_entry := gemini_key_entry f; title_entry := title_entry f;
     category_var := category_var f; tags_entry := tags_entry f;
     description_text := description_text f; progress_bar := progress_bar f;
     status_label := status_label f; generate_btn := generate_btn f;
     publish_btn := publish_btn f; dialogs := v |}.

(** Tk widget operations on the text held by an [Entry] or [Text]. *)
Definition delete_all (content : string) : string := "".
Definition insert_at_start (s content : string) : string := s +:+ content.

(** [self.description_text.get(1.0, tk.END)]: Tk appends the newline that
    always ends a text widget. *)
Definition text_get_all (content : string) : string :=
  content +:+ String "010"%char EmptyString.

Definition showerror (title message : string) (f : form) : form :=
  set_dialogs (dialogs f ++ [ShowError title message]) f.

Definition showinfo (title message : string) (f : form) : form :=
  set_dialogs (dialogs f ++ [ShowInfo title message]) f.

Definition update_status (message color : string) (f : form) : form :=
  set_status_label (message, color) f.

(** Truth value of [self.selected_image_path]. *)
Definition path_truthy (o : option string) : bool :=
  match o with Some p => PyStr.truthy p | None => false end.

Definition on_api_key_change (f : form) : form :=
  let api_key := PyStr.strip (gemini_key_entry f) in
  if PyStr.truthy api_key && path_truthy (selected_image_path f)
  then set_generate_btn NORMAL f
  else set_generate_btn DISABLED f.

Definition check_ready_state (f : form) : form :=
  let api_key := PyStr.strip (gemini_key_entry f) in
  let f1 :=
    if PyStr.truthy api_key && path_truthy (selected_image_path f)
    then set_generate_btn NORMAL f
    else set_generate_btn DISABLED f in
  if path_truthy (selected_image_path f1)
     && PyStr.truthy (PyStr.strip (title_entry f1))
     && PyStr.truthy (PyStr.strip (category_var f1))
  then set_publish_btn NORMAL f1
  else set_publish_btn DISABLED f1.

(** [show_preview]; [opened] is the outcome of decoding the file:
    [None] when [Image.open] and the thumbnail succeed, the exception text
    otherwise. *)
Definition show_preview (opened : option string) (f : form) : form :=
  match selected_image_path f with
  | None => f
  | Some p =>
      if negb (PyStr.truthy p) then f
      else match opened with
           | None =>
               set_preview_label (Some (Thumbnail p), "")
                 (set_preview_image (Some (Thumbnail p)) f)
           | Some e =>
               showerror "Preview Error" ("Could not preview image: " +:+ e)
                 (set_preview_label (None, "Preview error: " +:+ e) f)
           end
  end.

(** [select_image]; [file_path] is what the file dialog returns, the empty
    string when it is cancelled. *)
Definition select_image (file_path : string) (opened : option string) (f : form) : form :=
  if PyStr.truthy file_path then
    check_ready_state
      (show_preview opened
         (set_image_path_label (PyStr.basename file_path, "black")
            (set_selected_image_path (Some file_path) f)))
  else f.

Definition clear_all (f : form) : form :=
  let f1 := set_selected_image_path None f in
  let f2 := set_preview_image None f1 in
  let f3 := set_generated_metadata (PyDict []) f2 in
  let f4 := set_image_path_label ("No image selected", "gray") f3 in
  let f5 := set_preview_label (None, "No image selected") f4 in
  let f6 := set_title_entry (delete_all (title_entry f5)) f5 in
  let f7 := set_category_var "" f6 in
  let f8 := set_tags_entry (delete_all (tags_entry f7)) f7 in
  let f9 := set_description_text (delete_all (description_text f8)) f8 in
  check_ready_state (update_status "Ready" "green" f9).

(** The widgets as [setup_ui] creates them, with the attributes
    [__init__] sets before it. *)
Definition setup_ui (gemini_api_key : string) : form :=
  {| selected_image_path := None;
     preview_image := None;
     generated_metadata := PyDict [];
     supabase_client := false;
     r2_client := false;
     image_path_label := ("No image selected", "gray");
     preview_label := (None, "No image selected");
     gemini_key_entry :=
       if PyStr.truthy gemini_api_key
       then insert_at_start gemini_api_key "" else "";
     title_entry := "";
     category_var := "";
     tags_entry := "";
     description_text := "";
     progress_bar := false;
     status_label := ("Ready", "green");
     generate_btn := DISABLED;
     publish_btn := DISABLED;
     dialogs := [] |}.

(** What happens inside the [try] of [initialize_services]. *)
Inductive services : Type :=
| ServicesOk
| SupabaseRaises (e : string)
| R2Raises (e : string).

Definition initialize_services (outcome : services) (f : form) : form :=
  match outcome with
  | ServicesOk =>
      update_status "Services initialized successfully" "green"
        (set_r2_client true (set_supabase_client true f))
  | SupabaseRaises e =>
      showerror "Initialization Error" ("Failed to initialize services: " +:+ e)
        (update_status ("Failed to initialize services: " +:+ e) "red" f)
  | R2Raises e =>
      showerror "Initialization Error" ("Failed to initialize services: " +:+ e)
        (update_status ("Failed to initialize services: " +:+ e) "red"
           (set_supabase_client true f))
  end.

(** [__init__] once [load_environment] has returned. *)
Definition init (gemini_api_key : string) (outcome : services) : form :=
  check_ready_state (initialize_services outcome (setup_ui gemini_api_key)).

Definition validate_form (f : form) : bool * form :=
  if negb (path_truthy (selected_image_path f))
  then (false, showerror "Error" "Please select an image" f)
  else if negb (PyStr.truthy (PyStr.strip (title_entry f)))
  then (false, showerror "Error" "Please enter a title" f)
  else if negb (PyStr.truthy (PyStr.strip (category_var f)))
  then (false, showerror "Error" "Please select a category" f)
  else (true, f).

Definition _handle_ai_error (error_message : string) (f : form) : form :=
  showerror "AI Error" ("Failed to generate metadata: " +:+ error_message)
    (update_status ("AI generation failed: " +:+ error_message) "red" f).

Definition _publish_success (public_url : string) (f : form) : form :=
  clear_all
    (showinfo "Success"
       ("Wallpaper published successfully!" +:+ String "010"%char EmptyString
        +:+ "URL: " +:+ public_url)
       (update_status "Wallpaper published successfully!" "green" f)).

Definition _publish_error (error_message : string) (f : form) : form :=
  showerror "Publishing Error" ("Failed to publish wallpaper: " +:+ error_message)
    (update_status ("Publishing failed: " +:+ error_message) "red" f).

End Form.

(** ** Exceptions *)

(** A computation that may raise; [Raise msg] carries [str(e)]. *)
Inductive result (A : Type) : Type :=
| Ok (a : A)
| Raise (msg : string).
Arguments Ok {A} a.
Arguments Raise {A} msg.

(** ** Callbacks handed to the interactive thread with [root.after(0, ...)]

    [HandleAiError] and [PublishError] stand for the lambdas that evaluate
    [str(e)] when they run, [e] being the variable of the [except] clause
    that scheduled them. Python unbinds that variable when the clause ends:
    what these two callbacks do depends on whether the interactive thread
    runs them before the worker thread gets there (see [Ai.run_callback]). *)

Inductive callback : Type :=
| ProgressStart
| ProgressStop
| UpdateStatus (message color : string)
| UpdateMetadataUi (metadata : pyval)
| HandleAiError (error_message : string)
| PublishSuccess (public_url : string)
| PublishError (error_message : string).

(** ** AI metadata: reading the reply and filling the form *)

Module Ai.
Import Form.

(** The fence removal of [_generate_metadata_thread], up to the text
    handed to [json.loads]. *)
Definition unfence (text : string) : string :=
  let response_text := PyStr.strip text in
  if PyStr.startswith "```json" response_text then PyStr.slice 7 3 response_text
  else if PyStr.startswith "```" response_text then PyStr.slice 3 3 response_text
  else response_text.

(** The strings of a list, or the [TypeError] of [str.join] at the first
    item that is not a [str]. *)
Fixpoint str_items (l : list pyval) (i : nat) : result (list string) :=
  match l with
  | [] => Ok []
  | PyStr s :: l' =>
      match str_items l' (S i) with
      | Ok ss => Ok (s :: ss)
      | Raise e => Raise e
      end
  | v :: _ =>
      Raise ("sequence item " +:+ NilZero.string_of_uint (Nat.to_uint i)
             +:+ ": expected str instance, " +:+ type_name v +:+ " found")
  end.

(** [', '.join(tags)]: a list is joined when all its items are strings, a
    string is iterated character by character, a dict by its keys. *)
Definition join_tags (tags : pyval) : result string :=
  match tags with
  | PyList l =>
      match str_items l 0 with
      | Ok ss => Ok (PyStr.join ", " ss)
      | Raise e => Raise e
      end
  | PyStr s => Ok (PyStr.join ", " (PyStr.chars s))
  | PyDict d => Ok (PyStr.join ", " (List.map fst d))
  | _ => Raise "can only join an iterable"
  end.

Section WithLibraries.

(** [json.loads], from the Python standard library. *)
Variable json_loads : string -> result pyval.

(** What Tk makes of a value that is not a [str] when it is handed to a
    widget: the text it shows, or the error it raises. *)
Variable tcl_string : pyval -> result string.

Definition widget_text (v : pyval) : result string :=
  match v with PyStr s => Ok s | _ => tcl_string v end.

(** [json.loads] applied to the reply once its fence is removed. *)
Definition parse_response (text : string) : result pyval :=
  json_loads (unfence text).

(** [_generate_metadata_thread]; [reply] is [response.text], or the
    exception raised on the way to it. *)
Definition _generate_metadata_thread (reply : result string) : list callback :=
  [ProgressStart; UpdateStatus "Generating metadata with AI..." "blue"]
  ++ match reply with
     | Ok text =>
         match parse_response text with
         | Ok metadata => [UpdateMetadataUi metadata]
         | Raise e => [HandleAiError e]
         end
     | Raise e => [HandleAiError e]
     end
  ++ [ProgressStop].

Definition _update_metadata_ui (metadata : pyval) (f : form) : form :=
  let failed e g := update_status ("Error updating metadata: " +:+ e) "red" g in
  let f1 := set_title_entry (delete_all (title_entry f)) f in
  match metadata with
  | PyDict d =>
      match widget_text (dict_get d "title" (PyStr "")) with
      | Raise e => failed e f1
      | Ok title =>
          let f2 := set_title_entry (insert_at_start title (title_entry f1)) f1 in
          match widget_text (dict_get d "category" (PyStr "")) with
          | Raise e => failed e f2
          | Ok category =>
              let f3 := set_category_var category f2 in
              let tags := dict_get d "tags" (PyList []) in
              let f4 := set_tags_entry (delete_all (tags_entry f3)) f3 in
              match join_tags tags with
              | Raise e => failed e f4
              | Ok joined =>
                  let f5 := set_tags_entry (insert_at_start joined (tags_entry f4)) f4 in
                  let f6 := set_description_text (delete_all (description_text f5)) f5 in
                  match widget_text (dict_get d "description" (PyStr "")) with
                  | Raise e => failed e f6
                  | Ok description =>
                      let f7 :=
                        set_description_text
                          (insert_at_start description (description_text f6)) f6 in
                      let f8 := set_generated_metadata metadata f7 in
                      check_ready_state
                        (update_status "Metadata generated successfully!" "green" f8)
                  end
              end
          end
      end
  | v => failed ("'" +:+ type_name v +:+ "' object has no attribute 'get'") f1
  end.

(** One callback run by the interactive thread. [e_bound] tells whether
    the [except] clause that scheduled an error callback is still running
    when the callback runs; when it is over, [e] is unbound, [str(e)]
    raises [NameError] inside the callback, Tk prints the traceback, and
    the form is left as it is. *)
Definition run_callback (e_bound : bool) (c : callback) (f : form) : form :=
  match c with
  | ProgressStart => set_progress_bar true f
  | ProgressStop => set_progress_bar false f
  | UpdateStatus message color => update_status message color f
  | UpdateMetadataUi metadata => _update_metadata_ui metadata f
  | HandleAiError e => if e_bound then _handle_ai_error e f else f
  | PublishSuccess url => _publish_success url f
  | PublishError e => if e_bound then _publish_error e f else f
  end.

(** The callbacks run in the order they were scheduled. *)
Definition run_callbacks (e_bound : bool) (cs : list callback) (f : form) : form :=
  List.fold_left (fun f c => run_callback e_bound c f) cs f.

End WithLibraries.

End Ai.

(** ** Publishing: upload, then insert *)

Module Publish.
Import Form.

(** The row handed to the [wallpapers] table. *)
Record wallpaper_data : Type := {
  title : string;
  description : string;
  category : string;
  tags : list string;
  image_url : string
}.

(** The calls made on the two remote clients. *)
Inductive remote_call : Type :=
| UploadFileobj (file : string) (bucket : option string) (key content_type : string)
| TableInsert (table : string) (row : wallpaper_data).

(** What the world answers during one run of the publishing thread. *)
Record outcomes : Type := {
  uuid4 : string;                      (* [str(uuid.uuid4())] *)
  open_file : option string;           (* exception text of [open], if it raises *)
  upload_fileobj : option string;      (* exception text of the upload, if it raises *)
  insert_execute : result (list pyval); (* [result.data], or the exception text *)
  e_bound : bool  (* the [except] clause is still running when its callback runs *)
}.

(** An optional value inside an f-string. *)
Definition fstr (o : option string) : string :=
  match o with Some s => s | None => "None" end.

(** The tags of the row, from the content of the tags entry. *)
Definition tags_of_entry (entry : string) : list string :=
  List.map PyStr.strip
    (List.filter (fun tag => PyStr.truthy (PyStr.strip tag)) (PyStr.split "," entry)).

(** Truth value of [result.data]. *)
Definition data_truthy (data : list pyval) : bool :=
  match data with [] => false | _ :: _ => true end.

(** The thread's result: the remote calls it made, in order, and the
    callbacks it scheduled, in order. *)
Definition _publish_wallpaper_thread
    (environ : gmap string string) (f : form) (o : outcomes)
  : list remote_call * list callback :=
  let started := [ProgressStart; UpdateStatus "Uploading to R2..." "blue"] in
  let failed calls scheduled e := (calls, scheduled ++ [PublishError e; ProgressStop]) in
  match selected_image_path f with
  | None =>
      failed [] started "expected str, bytes or os.PathLike object, not NoneType"
  | Some path =>
      let file_extension := PyStr.suffix path in
      let unique_filename := uuid4 o +:+ file_extension in
      let bucket_name := Env.getenv environ "R2_BUCKET_NAME" in
      match open_file o with
      | Some e => failed [] started e
      | None =>
          if negb (r2_client f)
          then failed [] started "'NoneType' object has no attribute 'upload_fileobj'"
          else
            let upload :=
              UploadFileobj path bucket_name unique_filename
                ("image/" +:+ PyStr.tail file_extension) in
            match upload_fileobj o with
            | Some e => failed [upload] started e
            | None =>
                let public_url :=
                  fstr (Env.getenv environ "R2_PUBLIC_URL") +:+ "/" +:+ unique_filename in
                let saving := started ++ [UpdateStatus "Saving to database..." "blue"] in
                let row :=
                  {| title := PyStr.strip (title_entry f);
                     description := PyStr.strip (text_get_all (description_text f));
                     category := PyStr.strip (category_var f);
                     tags := tags_of_entry (tags_entry f);
                     image_url := public_url |} in
                if negb (supabase_client f)
                then failed [upload] saving "'NoneType' object has no attribute 'table'"
                else
                  let insert := TableInsert "wallpapers" row in
                  match insert_execute o with
                  | Raise e => failed [upload; insert] saving e
                  | Ok data =>
                      if data_truthy data
                      then ([upload; insert],
                            saving ++ [PublishSuccess public_url; ProgressStop])
                      else failed [upload; insert] saving "Failed to insert into database"
                  end
            end
      end
  end.

Section WithLibraries.

Variable tcl_string : pyval -> result string.

(** [publish_wallpaper]: the form is validated, the thread runs, and the
    interactive thread runs what it scheduled. *)
Definition publish_wallpaper
    (environ : gmap string string) (o : outcomes) (f : form)
  : list remote_call * form :=
  match validate_form f with
  | (false, f') => ([], f')
  | (true, f') =>
      let '(calls, scheduled) := _publish_wallpaper_thread environ f' o in
      (calls, Ai.run_callbacks tcl_string (e_bound o) scheduled f')
  end.

(** [generate_metadata]: the two guards, then the thread and what it
    scheduled. *)
Definition generate_metadata
    (json_loads : string -> result pyval) (reply : result string) (e_bound : bool)
    (f : form) : form :=
  if negb (path_truthy (selected_image_path f))
  then showerror "Error" "Please select an image first" f
  else if negb (PyStr.truthy (PyStr.strip (gemini_key_entry f)))
  then showerror "Error" "Please enter your Gemini API key" f
  else Ai.run_callbacks tcl_string e_bound
         (Ai._generate_metadata_thread json_loads reply) f.

End WithLibraries.

End Publish.

(** ** A session: the events of the interactive thread *)

Module Session.
Import Form.

Inductive event : Type :=
| SelectImage (file_path : string) (opened : option string)
| TypeApiKey (content : string)   (* keys released in the key entry, leaving [content] *)
| EditTitle (content : string)
| EditCategory (content : string)
| EditTags (content : string)
| EditDescription (content : string)
| GenerateMetadata (reply : result string) (e_bound : bool)
| PublishWallpaper (o : Publish.outcomes)
| ClearAll.

Section WithLibraries.

Variable json_loads : string -> result pyval.
Variable tcl_string : pyval -> result string.
Variable environ : gmap string string.

(** Only the key entry is bound to a handler ([<KeyRelease>]); the other
    fields change without any handler running. *)
Definition step (e : event) (f : form) : form :=
  match e with
  | SelectImage file_path opened => select_image file_path opened f
  | TypeApiKey content => on_api_key_change (set_gemini_key_entry content f)
  | EditTitle content => set_title_entry content f
  | EditCategory content => set_category_var content f
  | EditTags content => set_tags_entry content f
  | EditDescription content => set_description_text content f
  | GenerateMetadata reply e_bound =>
      Publish.generate_metadata tcl_string json_loads reply e_bound f
  | PublishWallpaper o => snd (Publish.publish_wallpaper tcl_string environ o f)
  | ClearAll => clear_all f
  end.

Definition run (es : list event) (f : form) : form :=
  List.fold_left (fun f e => step e f) es f.

End WithLibraries.

End Session.

(** ** Notions used by the statements *)

Module Spec.
Import PyStr Form Publish.

(** An image is selected: the path attribute holds a non-empty path. *)
Definition image_selected (f : form) : Prop :=
  exists p, selected_image_path f = Some p /\ p <> "".

(** What the operator entered or was shown: selected file, preview,
    title, category, tags and description. *)
Definition entered (f : form)
  : option string * (option photo * (option photo * string))
    * (string * string * string * string) :=
  (selected_image_path f, (preview_image f, preview_label f),
   (title_entry f, category_var f, tags_entry f, description_text f)).

(** The tags as the specification words them: split on commas, trim every
    segment, discard the segments that became empty. *)
Definition tags_spec (entry : string) : list string :=
  List.filter PyStr.truthy (List.map PyStr.strip (PyStr.split "," entry)).

(** The whitespace of the JSON grammar: space, tab, line feed, carriage
    return. *)
Definition json_ws (c : ascii) : bool :=
  let n := N_of_ascii c in ((n =? 32) || (n =? 9) || (n =? 10) || (n =? 13))%N.

(** A text that reads as optional JSON whitespace, an opening brace, a
    body, a closing brace, optional JSON whitespace. *)
Definition object_text (lead body trail : string) : string :=
  lead +:+ "{" +:+ body +:+ "}" +:+ trail.

(** A decoder that ignores the JSON whitespace around a text. *)
Definition skips_ws (json_loads : string -> result pyval) : Prop :=
  forall lead s trail v,
    PyStr.all_chars json_ws lead = true ->
    PyStr.all_chars json_ws trail = true ->
    (json_loads (lead +:+ s +:+ trail) = Ok v <-> json_loads s = Ok v).

(** A small decoder of that kind, for the empty object alone. *)
Definition loads_empty_object (s : string) : result pyval :=
  if String.eqb (PyStr.strip_by json_ws s) "{}" then Ok (PyDict [])
  else Raise "Expecting value".

(** A describe result with some keys possibly missing, every present
    value being of the expected type. *)
Definition describe_result
    (title description category : option string) (tags : option (list string)) : pyval :=
  PyDict
    (match title with Some t => [("title", PyStr t)] | None => [] end
     ++ match description with Some d => [("description", PyStr d)] | None => [] end
     ++ match category with Some c => [("category", PyStr c)] | None => [] end
     ++ match tags with Some ts => [("tags", PyList (List.map PyStr ts))] | None => [] end).

Definition or_empty (o : option string) : string :=
  match o with Some s => s | None => "" end.

(** What is left of a left strip does not start with a stripped
    character. *)
Definition clean_head (p : ascii -> bool) (s : string) : Prop :=
  match s with EmptyString => True | String c _ => p c = false end.

(** A tag that is kept is trimmed and not blank. *)
Definition kept_tag (t : string) : Prop :=
  t <> "" /\ strip t = t /\ all_chars isspace t = false.

(** The rows of the insert calls of a trace. *)
Definition inserted_rows (calls : list remote_call) : list wallpaper_data :=
  List.flat_map
    (fun c => match c with TableInsert _ row => [row] | UploadFileobj _ _ _ _ => [] end)
    calls.

(** The state the two buttons are put in, as a function of the fields. *)
Definition generate_ready (f : form) : bool :=
  truthy (strip (gemini_key_entry f)) && path_truthy (selected_image_path f).

Definition publish_ready (f : form) : bool :=
  path_truthy (selected_image_path f)
  && truthy (strip (title_entry f))
  && truthy (strip (category_var f)).

Definition btn_of (b : bool) : btn_state := if b then NORMAL else DISABLED.

(** The generate button reflects the key entry and the selected path. *)
Definition generate_in_sync (f : form) : Prop :=
  generate_btn f = btn_of (generate_ready f).

(** The fields of a form nobody has touched yet. *)
Definition idle_fields
  : option string * (option photo * (option photo * string))
    * (string * string * string * string) :=
  (None, (None, (None, "No image selected")), ("", "", "", "")).

Definition tags_or_none (tags : option (list string)) : list string :=
  match tags with Some ts => ts | None => [] end.

(** What the thread schedules before anything can fail. *)
Definition started : list callback :=
  [ProgressStart; UpdateStatus "Uploading to R2..." "blue"].

Definition saving : list callback :=
  started ++ [UpdateStatus "Saving to database..." "blue"].

(** The upload call and the row of a run, as the thread builds them. *)
Definition upload_of (environ : gmap string string) (path : string) (o : outcomes)
  : remote_call :=
  UploadFileobj path (Env.getenv environ "R2_BUCKET_NAME")
    (uuid4 o +:+ suffix path) ("image/" +:+ tail (suffix path)).

Definition row_of (environ : gmap string string) (f : form) (path : string) (o : outcomes)
  : wallpaper_data :=
  {| title := strip (title_entry f);
     description := strip (text_get_all (description_text f));
     category := strip (category_var f);
     tags := tags_of_entry (tags_entry f);
     image_url :=
       fstr (Env.getenv environ "R2_PUBLIC_URL") +:+ "/" +:+ (uuid4 o +:+ suffix path) |}.

(** The upload statement of the publishing thread raises [e]: [open]
    raises, or the storage client was never created, or the upload itself
    raises. *)
Definition upload_raises (f : form) (o : Publish.outcomes) (e : string) : Prop :=
  Publish.open_file o = Some e
  \/ (Publish.open_file o = None /\ r2_client f = false
      /\ e = "'NoneType' object has no attribute 'upload_fileobj'")
  \/ (Publish.open_file o = None /\ r2_client f = true
      /\ Publish.upload_fileobj o = Some e).

(** The upload statement completes. *)
Definition upload_succeeds (f : form) (o : Publish.outcomes) : Prop :=
  Publish.open_file o = None /\ r2_client f = true /\ Publish.upload_fileobj o = None.

(** The insert is issued and fails with [e]: it raises [e], or it returns
    no row, which the thread turns into its own exception. *)
Definition insert_fails (f : form) (o : Publish.outcomes) (e : string) : Prop :=
  supabase_client f = true
  /\ (Publish.insert_execute o = Raise e
      \/ (Publish.insert_execute o = Ok [] /\ e = "Failed to insert into database")).

End Spec.

(** ** Sample inputs *)

Module Samples.

(** A configuration file with the six validated variables and nothing
    else. *)
Definition dotenv_six : gmap string string :=
  list_to_map
    [ ("NEXT_PUBLIC_SUPABASE_URL", "https://db.example.org");
      ("NEXT_PUBLIC_SUPABASE_ANON_KEY", "anon");
      ("R2_ACCOUNT_ID", "acct");
      ("R2_ACCESS_KEY_ID", "kid");
      ("R2_SECRET_ACCESS_KEY", "secret");
      ("R2_BUCKET_NAME", "wallpapers") ].

(** The same file with the public base URL. *)
Definition dotenv_seven : gmap string string :=
  <["R2_PUBLIC_URL" := "https://cdn.example.org"]> dotenv_six.

(** The form once a title and a category are typed and [photo.png] is
    chosen. *)
Definition filled : Form.form :=
  Form.select_image "/home/u/photo.png" None
    (Form.set_category_var "nature"
       (Form.set_title_entry "Mountain" (Form.init "" Form.ServicesOk))).

Definition all_fine : Publish.outcomes :=
  {| Publish.uuid4 := "123e4567-e89b-42d3-a456-426614174000";
     Publish.open_file := None;
     Publish.upload_fileobj := None;
     Publish.insert_execute := Ok [PyDict [("id", PyInt 1)]];
     Publish.e_bound := true |}.

Definition upload_refused : Publish.outcomes :=
  {| Publish.uuid4 := "123e4567-e89b-42d3-a456-426614174000";
     Publish.open_file := None;
     Publish.upload_fileobj := Some "An error occurred (AccessDenied)";
     Publish.insert_execute := Ok [PyDict [("id", PyInt 1)]];
     Publish.e_bound := true |}.

(** The same refusal, the [except] clause being over when the interactive
    thread gets to the error callback. *)
Definition upload_refused_late : Publish.outcomes :=
  {| Publish.uuid4 := "123e4567-e89b-42d3-a456-426614174000";
     Publish.open_file := None;
     Publish.upload_fileobj := Some "An error occurred (AccessDenied)";
     Publish.insert_execute := Ok [PyDict [("id", PyInt 1)]];
     Publish.e_bound := false |}.

Definition no_row_back : Publish.outcomes :=
  {| Publish.uuid4 := "123e4567-e89b-42d3-a456-426614174000";
     Publish.open_file := None;
     Publish.upload_fileobj := None;
     Publish.insert_execute := Ok [];
     Publish.e_bound := true |}.

(** What Tk makes of a value that is not a string is of no concern
    here. *)
Definition no_text (v : pyval) : result string := Ok "".

End Samples.

(** ** The setup script, [setup_wallpaper_publisher.py] *)

Module Setup.

(** [needle in s] on strings: [needle] occurs somewhere in [s]. *)
Fixpoint contains (needle s : string) : bool :=
  String.prefix needle s
  || match s with
     | EmptyString => false
     | String _ r => contains needle r
     end.

Definition required_vars : list string :=
  [ "NEXT_PUBLIC_SUPABASE_URL";
    "NEXT_PUBLIC_SUPABASE_ANON_KEY";
    "R2_ACCOUNT_ID";
    "R2_ACCESS_KEY_ID";
    "R2_SECRET_ACCESS_KEY";
    "R2_BUCKET_NAME" ].

Definition optional_vars : list string := ["GEMINI_API_KEY"].

(** The test the script applies to one variable and the text of the file:
    no assignment of it anywhere, or an assignment that starts with the
    placeholder [your_], or an assignment behind a comment sign. *)
Definition not_configured (content var : string) : bool :=
  negb (contains (var +:+ "=") content)
  || contains (var +:+ "=your_") content
  || contains ("#" +:+ var +:+ "=") content.

(** What [check_environment] finds and prints. *)
Inductive finding : Type :=
| NoFile                                   (* the file does not exist *)
| Incomplete (missing_vars : list string)  (* required variables to fix *)
| LooksGood (missing_optional : list string).

(** [check_environment]; [env_file] is the text of [.env.local], [None]
    when the file does not exist. *)
Definition check_environment (env_file : option string) : finding :=
  match env_file with
  | None => NoFile
  | Some content =>
      match List.filter (not_configured content) required_vars with
      | [] => LooksGood (List.filter (not_configured content) optional_vars)
      | missing_vars => Incomplete missing_vars
      end
  end.



(** How [main] ends: [sys.exit(code)], or a normal return. *)
Inductive ending : Type :=
| Exited (code : nat)
| Returned.

(** One run of [main]: how it ends, the packages handed to pip, in order,
    and those it reports as failed. *)
Record run : Type := {
  ending_of : ending;
  attempted : list string;
  failed_packages : list string
}.



End Setup.

(** ** Further notions used by the statements *)

Module Notions.
Import PyStr Form Publish.

(** The character [ch] does not occur in [s]. *)
Definition free_of (ch : ascii) (s : string) : bool :=
  all_chars (fun c => negb (Ascii.eqb c ch)) s.

(** A tag that the tags entry gives back as it is: not empty, no
    whitespace at either end, no comma. *)
Definition plain_tag (t : string) : Prop :=
  t <> "" /\ strip t = t /\ free_of "," t = true.


(** The path attribute holds no empty path. *)
Definition path_sound (f : form) : Prop :=
  selected_image_path f <> Some "".

(** The path of [g] is the one of [f], or none. *)
Definition path_kept (g f : form) : Prop :=
  selected_image_path g = selected_image_path f \/ selected_image_path g = None.

(** The storage client exists only if the database client does. *)
Definition clients_ordered (f : form) : Prop :=
  r2_client f = true -> supabase_client f = true.

(** The list of remote calls is an upload at most followed by an
    insert. *)
Definition upload_then_insert (calls : list remote_call) : Prop :=
  calls = []
  \/ (exists file bucket key content_type,
        calls = [UploadFileobj file bucket key content_type])
  \/ (exists file bucket key content_type row,
        calls = [UploadFileobj file bucket key content_type; TableInsert "wallpapers" row]).

End Notions.

(** * Facts about the string operations *)

Module StrFacts.
Import PyStr Spec.

Lemma append_cons c s t : String c s +:+ t = String c (s +:+ t).
Proof. reflexivity. Qed.

Lemma append_empty_l s : "" +:+ s = s.
Proof. reflexivity. Qed.

Lemma append_empty_r s : s +:+ "" = s.
Proof. induction s as [|c s IH]; [reflexivity|]. rewrite append_cons, IH. reflexivity. Qed.

Lemma append_assoc s t u : (s +:+ t) +:+ u = s +:+ (t +:+ u).
Proof.
  induction s as [|c s IH]; [reflexivity|].
  rewrite !append_cons, IH. reflexivity.
Qed.

Lemma length_append s t : String.length (s +:+ t) = String.length s + String.length t.
Proof.
  induction s as [|c s IH]; [reflexivity|].
  rewrite append_cons. simpl. rewrite IH. reflexivity.
Qed.

Lemma truthy_true s : truthy s = true <-> s <> "".
Proof. destruct s; simpl; split; intros H; congruence. Qed.

Lemma truthy_false s : truthy s = false <-> s = "".
Proof. destruct s; simpl; split; intros H; congruence. Qed.

Section Strip.
Variable p : ascii -> bool.

Lemma lstrip_by_clean s : clean_head p (lstrip_by p s).
Proof.
  induction s as [|c s IH]; simpl; [exact I|].
  destruct (p c) eqn:E; [exact IH | exact E].
Qed.

Lemma lstrip_by_id s : clean_head p s -> lstrip_by p s = s.
Proof. destruct s as [|c s]; simpl; [reflexivity|]. intros ->. reflexivity. Qed.

Lemma rstrip_by_head c s :
  p c = false -> exists r, rstrip_by p (String c s) = String c r.
Proof.
  intros Hc. simpl. destruct (rstrip_by p s) as [|c' r'].
  - rewrite Hc. eauto.
  - eauto.
Qed.

Lemma rstrip_by_clean s : clean_head p s -> clean_head p (rstrip_by p s).
Proof.
  destruct s as [|c s]; [intros _; exact I|].
  intros Hc. destruct (rstrip_by_head c s Hc) as [r ->]. exact Hc.
Qed.

Lemma rstrip_by_cons c r :
  rstrip_by p (String c r)
  = match rstrip_by p r with
    | EmptyString => if p c then EmptyString else String c EmptyString
    | r' => String c r'
    end.
Proof. reflexivity. Qed.

Lemma rstrip_by_idem s : rstrip_by p (rstrip_by p s) = rstrip_by p s.
Proof.
  induction s as [|c s IH]; [reflexivity|].
  simpl. destruct (rstrip_by p s) as [|c' r'] eqn:E.
  - destruct (p c) eqn:Hc; [reflexivity|]. simpl. rewrite Hc. reflexivity.
  - rewrite rstrip_by_cons, IH. reflexivity.
Qed.

Lemma strip_by_idem s : strip_by p (strip_by p s) = strip_by p s.
Proof.
  unfold strip_by.
  rewrite (lstrip_by_id (rstrip_by p (lstrip_by p s))).
  - apply rstrip_by_idem.
  - apply rstrip_by_clean, lstrip_by_clean.
Qed.

(** A string that consists of stripped characters only. *)
Lemma lstrip_by_all s : all_chars p s = true -> lstrip_by p s = "".
Proof.
  induction s as [|c s IH]; simpl; [reflexivity|].
  destruct (p c); simpl; [exact IH | discriminate].
Qed.

Lemma rstrip_by_all s : all_chars p s = true -> rstrip_by p s = "".
Proof.
  induction s as [|c s IH]; simpl; [reflexivity|].
  destruct (p c); simpl; [|discriminate].
  intros H. rewrite (IH H). reflexivity.
Qed.

Lemma strip_by_empty_all s : strip_by p s = "" -> all_chars p s = true.
Proof.
  unfold strip_by. induction s as [|c s IH]; simpl; [reflexivity|].
  destruct (p c) eqn:Hc; simpl; [exact IH|].
  destruct (rstrip_by p s); [rewrite Hc|]; discriminate.
Qed.

Lemma lstrip_by_app_all l s : all_chars p l = true -> lstrip_by p (l +:+ s) = lstrip_by p s.
Proof.
  induction l as [|c l IH]; [reflexivity|].
  rewrite append_cons. simpl. destruct (p c); simpl; [exact IH | discriminate].
Qed.

Lemma rstrip_by_app_all s r : all_chars p r = true -> rstrip_by p (s +:+ r) = rstrip_by p s.
Proof.
  intros Hr. induction s as [|c s IH].
  - rewrite append_empty_l. apply rstrip_by_all, Hr.
  - rewrite append_cons. simpl. rewrite IH. reflexivity.
Qed.

(** Nothing is removed in front of a tail that survives. *)
Lemma rstrip_by_app_keep s t :
  rstrip_by p t <> "" -> rstrip_by p (s +:+ t) = s +:+ rstrip_by p t.
Proof.
  intros Ht. induction s as [|c s IH]; [reflexivity|].
  rewrite !append_cons. simpl. rewrite IH.
  destruct (s +:+ rstrip_by p t) eqn:E; [|reflexivity].
  destruct s; [|discriminate]. rewrite append_empty_l in E. contradiction.
Qed.

End Strip.

Lemma strip_idem s : strip (strip s) = strip s.
Proof. apply strip_by_idem. Qed.

Lemma strip_nonempty_not_blank s : strip s <> "" -> all_chars isspace s = false.
Proof.
  intros H. destruct (all_chars isspace s) eqn:E; [|reflexivity].
  exfalso. apply H. unfold strip, strip_by.
  rewrite (lstrip_by_all _ _ E). reflexivity.
Qed.

End StrFacts.

(** * The tags of the inserted row *)

Module TagsFacts.
Import PyStr Publish Spec.

Lemma filter_map_swap {A B : Type} (g : A -> B) (q : B -> bool) (l : list A) :
  List.filter q (List.map g l) = List.map g (List.filter (fun a => q (g a)) l).
Proof.
  induction l as [|a l IH]; simpl; [reflexivity|].
  destruct (q (g a)); simpl; rewrite IH; reflexivity.
Qed.

Lemma tags_of_entry_refines entry : tags_of_entry entry = Spec.tags_spec entry.
Proof. unfold tags_of_entry, Spec.tags_spec. symmetry. apply filter_map_swap. Qed.

Lemma tags_of_entry_kept entry : List.Forall kept_tag (tags_of_entry entry).
Proof.
  unfold tags_of_entry.
  induction (split "," entry) as [|w ws IH]; simpl; [constructor|].
  destruct (truthy (strip w)) eqn:E; [|exact IH].
  simpl. constructor; [|exact IH].
  apply StrFacts.truthy_true in E.
  assert (Hs : strip (strip w) = strip w) by apply StrFacts.strip_idem.
  repeat split; [exact E | exact Hs |].
  apply StrFacts.strip_nonempty_not_blank. rewrite Hs. exact E.
Qed.

Lemma thread_rows_tags environ f o :
  List.Forall (fun row => tags row = tags_of_entry (Form.tags_entry f))
              (inserted_rows (fst (_publish_wallpaper_thread environ f o))).
Proof.
  unfold _publish_wallpaper_thread.
  destruct (Form.selected_image_path f); [|constructor].
  destruct (open_file o); [constructor|].
  destruct (Form.r2_client f); simpl; [|constructor].
  destruct (upload_fileobj o); [constructor|].
  destruct (Form.supabase_client f); simpl; [|constructor].
  destruct (insert_execute o) as [data|e]; [destruct (data_truthy data)|];
    simpl; repeat constructor.
Qed.

End TagsFacts.

(** C10. The tags of the inserted row are those of the tags entry split on
    commas, each segment trimmed, the segments that became empty discarded:
    the program's list (filter, then trim) is the one the wording describes
    (trim, then discard). No tag of the list is empty or made of whitespace
    only, each is already trimmed, an empty entry gives the empty list, and
    every row handed to the database by the publishing thread carries that
    list. *)
Theorem tags_split_trimmed_nonempty :
  forall entry : string,
    Publish.tags_of_entry entry = Spec.tags_spec entry
    /\ List.Forall Spec.kept_tag (Publish.tags_of_entry entry)
    /\ Publish.tags_of_entry "" = []
    /\ forall environ f o,
        List.Forall
          (fun row => Publish.tags row = Publish.tags_of_entry (Form.tags_entry f))
          (Spec.inserted_rows (fst (Publish._publish_wallpaper_thread environ f o))).
Proof.
  intros entry. split; [apply TagsFacts.tags_of_entry_refines|].
  split; [apply TagsFacts.tags_of_entry_kept|].
  split; [reflexivity|]. intros. apply TagsFacts.thread_rows_tags.
Qed.

(** * Readiness of the two actions *)

Module ReadyFacts.
Import PyStr Form Spec.

Lemma path_truthy_selected f :
  path_truthy (selected_image_path f) = true <-> Spec.image_selected f.
Proof.
  unfold Spec.image_selected. destruct (selected_image_path f) as [p|]; simpl.
  - rewrite StrFacts.truthy_true. split.
    + intros H. exists p. split; [reflexivity | exact H].
    + intros (q & Hq & Hne). congruence.
  - split; [discriminate|]. intros (q & Hq & _). discriminate.
Qed.

Lemma btn_of_normal b : btn_of b = NORMAL <-> b = true.
Proof. destruct b; simpl; split; congruence. Qed.

Lemma check_ready_state_publish f :
  publish_btn (check_ready_state f) = btn_of (publish_ready f).
Proof.
  unfold check_ready_state, publish_ready.
  destruct (truthy (strip (gemini_key_entry f)) && path_truthy (selected_image_path f));
    simpl;
    destruct (path_truthy (selected_image_path f)
              && truthy (strip (title_entry f)) && truthy (strip (category_var f)));
    reflexivity.
Qed.

Lemma check_ready_state_generate f :
  generate_btn (check_ready_state f) = btn_of (generate_ready f).
Proof.
  unfold check_ready_state, generate_ready.
  destruct (truthy (strip (gemini_key_entry f)) && path_truthy (selected_image_path f));
    simpl;
    destruct (path_truthy (selected_image_path f)
              && truthy (strip (title_entry f)) && truthy (strip (category_var f)));
    reflexivity.
Qed.

Lemma on_api_key_change_generate f :
  generate_btn (on_api_key_change f) = btn_of (generate_ready f).
Proof.
  unfold on_api_key_change, generate_ready.
  destruct (truthy (strip (gemini_key_entry f)) && path_truthy (selected_image_path f));
    reflexivity.
Qed.

(** The handlers touch nothing but the two buttons. *)
Lemma check_ready_state_fields f :
  Spec.entered (check_ready_state f) = Spec.entered f
  /\ gemini_key_entry (check_ready_state f) = gemini_key_entry f
  /\ generated_metadata (check_ready_state f) = generated_metadata f
  /\ image_path_label (check_ready_state f) = image_path_label f
  /\ status_label (check_ready_state f) = status_label f
  /\ dialogs (check_ready_state f) = dialogs f.
Proof.
  unfold check_ready_state, Spec.entered.
  destruct (truthy (strip (gemini_key_entry f)) && path_truthy (selected_image_path f));
    simpl;
    destruct (path_truthy (selected_image_path f)
              && truthy (strip (title_entry f)) && truthy (strip (category_var f)));
    simpl; repeat split; reflexivity.
Qed.

Lemma on_api_key_change_fields f :
  Spec.entered (on_api_key_change f) = Spec.entered f
  /\ gemini_key_entry (on_api_key_change f) = gemini_key_entry f
  /\ publish_btn (on_api_key_change f) = publish_btn f.
Proof.
  unfold on_api_key_change, Spec.entered.
  destruct (truthy (strip (gemini_key_entry f)) && path_truthy (selected_image_path f));
    simpl; repeat split; reflexivity.
Qed.

Lemma generate_ready_iff f :
  generate_ready f = true
  <-> Spec.image_selected f /\ strip (gemini_key_entry f) <> "".
Proof.
  unfold generate_ready. rewrite andb_true_iff, StrFacts.truthy_true, path_truthy_selected.
  tauto.
Qed.

Lemma publish_ready_iff f :
  publish_ready f = true
  <-> Spec.image_selected f
      /\ strip (title_entry f) <> "" /\ strip (category_var f) <> "".
Proof.
  unfold publish_ready.
  rewrite !andb_true_iff, !StrFacts.truthy_true, path_truthy_selected. tauto.
Qed.

End ReadyFacts.

(** C2. Once [check_ready_state] has run, the publish button is enabled
    exactly when an image is selected and the trimmed title and the trimmed
    category are both non-empty; whatever the description and the tags
    hold, the button ends in the same state. *)
Theorem publish_enabled_iff_ready :
  forall f : Form.form,
    (Form.publish_btn (Form.check_ready_state f) = Form.NORMAL
     <-> Spec.image_selected f
         /\ PyStr.strip (Form.title_entry f) <> ""
         /\ PyStr.strip (Form.category_var f) <> "")
    /\ forall description tags : string,
        Form.publish_btn
          (Form.check_ready_state
             (Form.set_description_text description (Form.set_tags_entry tags f)))
        = Form.publish_btn (Form.check_ready_state f).
Proof.
  intros f. split.
  - rewrite ReadyFacts.check_ready_state_publish, ReadyFacts.btn_of_normal.
    apply ReadyFacts.publish_ready_iff.
  - intros d t. rewrite !ReadyFacts.check_ready_state_publish. reflexivity.
Qed.

(** * The generate button along a session *)

Module SessionFacts.
Import PyStr Form ReadyFacts Spec.

Lemma in_sync_same f g :
  gemini_key_entry g = gemini_key_entry f ->
  selected_image_path g = selected_image_path f ->
  generate_btn g = generate_btn f ->
  generate_in_sync f -> generate_in_sync g.
Proof.
  unfold generate_in_sync, generate_ready. intros -> -> ->. exact (fun H => H).
Qed.

Lemma in_sync_check f : generate_in_sync (check_ready_state f).
Proof.
  unfold generate_in_sync. rewrite check_ready_state_generate.
  unfold generate_ready.
  destruct (check_ready_state_fields f) as (He & Hk & _).
  unfold Spec.entered in He. injection He as Hp _ _ _ _ _ _.
  rewrite Hk, Hp. reflexivity.
Qed.

Lemma in_sync_key_change f : generate_in_sync (on_api_key_change f).
Proof.
  unfold generate_in_sync. rewrite on_api_key_change_generate.
  unfold generate_ready.
  destruct (on_api_key_change_fields f) as (He & Hk & _).
  unfold Spec.entered in He. injection He as Hp _ _ _ _ _ _.
  rewrite Hk, Hp. reflexivity.
Qed.

Lemma in_sync_clear_all f : generate_in_sync (clear_all f).
Proof. unfold clear_all. apply in_sync_check. Qed.

Lemma in_sync_showerror t m f : generate_in_sync f -> generate_in_sync (showerror t m f).
Proof. apply in_sync_same; reflexivity. Qed.

Section WithLibraries.

Variable json_loads : string -> result pyval.
Variable tcl_string : pyval -> result string.
Variable environ : gmap string string.

Lemma in_sync_update_metadata_ui metadata f :
  generate_in_sync f -> generate_in_sync (Ai._update_metadata_ui tcl_string metadata f).
Proof.
  intros H. unfold Ai._update_metadata_ui. cbv zeta.
  destruct metadata as [| | | | |l|d];
    try (revert H; apply in_sync_same; reflexivity).
  destruct (Ai.widget_text tcl_string (dict_get d "title" (PyStr "")));
    [|revert H; apply in_sync_same; reflexivity].
  destruct (Ai.widget_text tcl_string (dict_get d "category" (PyStr "")));
    [|revert H; apply in_sync_same; reflexivity].
  destruct (Ai.join_tags (dict_get d "tags" (PyList [])));
    [|revert H; apply in_sync_same; reflexivity].
  destruct (Ai.widget_text tcl_string (dict_get d "description" (PyStr "")));
    [|revert H; apply in_sync_same; reflexivity].
  apply in_sync_check.
Qed.

Lemma in_sync_run_callback e_bound c f :
  generate_in_sync f -> generate_in_sync (Ai.run_callback tcl_string e_bound c f).
Proof.
  intros H. destruct c; simpl;
    try (revert H; apply in_sync_same; reflexivity).
  - apply in_sync_update_metadata_ui, H.
  - destruct e_bound; [revert H; apply in_sync_same; reflexivity | exact H].
  - apply in_sync_clear_all.
  - destruct e_bound; [revert H; apply in_sync_same; reflexivity | exact H].
Qed.

Lemma in_sync_run_callbacks e_bound cs f :
  generate_in_sync f -> generate_in_sync (Ai.run_callbacks tcl_string e_bound cs f).
Proof.
  unfold Ai.run_callbacks. revert f.
  induction cs as [|c cs IH]; intros f H; simpl; [exact H|].
  apply IH, in_sync_run_callback, H.
Qed.

Lemma in_sync_step e f :
  generate_in_sync f -> generate_in_sync (Session.step json_loads tcl_string environ e f).
Proof.
  intros H. destruct e; simpl;
    try (revert H; apply in_sync_same; reflexivity).
  - unfold select_image. destruct (truthy file_path); [apply in_sync_check | exact H].
  - apply in_sync_key_change.
  - unfold Publish.generate_metadata.
    destruct (negb (path_truthy (selected_image_path f))); [apply in_sync_showerror, H|].
    destruct (negb (truthy (strip (gemini_key_entry f)))); [apply in_sync_showerror, H|].
    apply in_sync_run_callbacks, H.
  - unfold Publish.publish_wallpaper, validate_form.
    destruct (negb (path_truthy (selected_image_path f))); [apply in_sync_showerror, H|].
    destruct (negb (truthy (strip (title_entry f)))); [apply in_sync_showerror, H|].
    destruct (negb (truthy (strip (category_var f)))); [apply in_sync_showerror, H|].
    destruct (Publish._publish_wallpaper_thread environ f o) as [calls scheduled].
    apply in_sync_run_callbacks, H.
  - apply in_sync_clear_all.
Qed.

Lemma in_sync_run es f :
  generate_in_sync f -> generate_in_sync (Session.run json_loads tcl_string environ es f).
Proof.
  unfold Session.run. revert f.
  induction es as [|e es IH]; intros f H; simpl; [exact H|].
  apply IH, in_sync_step, H.
Qed.

End WithLibraries.

Lemma in_sync_init gemini_api_key outcome : generate_in_sync (init gemini_api_key outcome).
Proof. unfold init. apply in_sync_check. Qed.

Lemma init_key_entry gemini_api_key outcome :
  gemini_key_entry (init gemini_api_key outcome) = gemini_api_key.
Proof.
  unfold init.
  destruct (check_ready_state_fields
              (initialize_services outcome (setup_ui gemini_api_key))) as (_ & -> & _).
  destruct outcome; simpl; destruct gemini_api_key; simpl; try reflexivity;
    unfold insert_at_start; rewrite StrFacts.append_empty_r; reflexivity.
Qed.

Lemma in_sync_iff f :
  generate_in_sync f ->
  (generate_btn f = NORMAL
   <-> Spec.image_selected f /\ strip (gemini_key_entry f) <> "").
Proof.
  unfold generate_in_sync. intros ->. rewrite btn_of_normal. apply generate_ready_iff.
Qed.

End SessionFacts.

(** C8. The generate button is enabled exactly when an image is selected
    and the trimmed content of the key entry is non-empty: this is the state
    [check_ready_state] and [on_api_key_change] leave it in, and it holds in
    every state a session reaches from start-up, whether the key entry was
    pre-filled from the configuration (the entry then holds the configured
    key) or typed (every key release runs [on_api_key_change]). *)
Theorem generate_enabled_iff_image_and_key :
  forall f : Form.form,
    (Form.generate_btn (Form.check_ready_state f) = Form.NORMAL
     <-> Spec.image_selected f /\ PyStr.strip (Form.gemini_key_entry f) <> "")
    /\ (Form.generate_btn (Form.on_api_key_change f) = Form.NORMAL
        <-> Spec.image_selected f /\ PyStr.strip (Form.gemini_key_entry f) <> "")
    /\ forall json_loads tcl_string environ gemini_api_key outcome,
        Form.gemini_key_entry (Form.init gemini_api_key outcome) = gemini_api_key
        /\ forall events,
            let g := Session.run json_loads tcl_string environ events
                       (Form.init gemini_api_key outcome) in
            Form.generate_btn g = Form.NORMAL
            <-> Spec.image_selected g /\ PyStr.strip (Form.gemini_key_entry g) <> "".
Proof.
  intros f. split; [|split].
  - rewrite ReadyFacts.check_ready_state_generate, ReadyFacts.btn_of_normal.
    apply ReadyFacts.generate_ready_iff.
  - rewrite ReadyFacts.on_api_key_change_generate, ReadyFacts.btn_of_normal.
    apply ReadyFacts.generate_ready_iff.
  - intros json_loads tcl_string environ key outcome.
    split; [apply SessionFacts.init_key_entry|].
    intros events g. apply SessionFacts.in_sync_iff.
    apply SessionFacts.in_sync_run, SessionFacts.in_sync_init.
Qed.

(** * Clearing the form *)

Module ClearFacts.
Import PyStr Form ReadyFacts Spec.

Lemma setup_ui_idle gemini_api_key : Spec.entered (setup_ui gemini_api_key) = idle_fields.
Proof. reflexivity. Qed.

Lemma clear_all_entered f : Spec.entered (clear_all f) = idle_fields.
Proof.
  unfold clear_all.
  match goal with |- Spec.entered (check_ready_state ?x) = _ =>
    destruct (check_ready_state_fields x) as (-> & _) end.
  reflexivity.
Qed.

Lemma clear_all_buttons f :
  publish_btn (clear_all f) = DISABLED /\ generate_btn (clear_all f) = DISABLED.
Proof.
  unfold clear_all.
  rewrite check_ready_state_publish, check_ready_state_generate.
  unfold publish_ready, generate_ready. simpl. rewrite andb_false_r. split; reflexivity.
Qed.

Lemma clear_all_rest f :
  generated_metadata (clear_all f) = PyDict []
  /\ image_path_label (clear_all f) = ("No image selected", "gray")
  /\ status_label (clear_all f) = ("Ready", "green").
Proof.
  unfold clear_all.
  match goal with |- context [check_ready_state ?x] =>
    destruct (check_ready_state_fields x) as (_ & _ & -> & -> & -> & _) end.
  repeat split; reflexivity.
Qed.

Lemma clear_all_dialogs f : dialogs (clear_all f) = dialogs f.
Proof.
  unfold clear_all.
  match goal with |- context [check_ready_state ?x] =>
    destruct (check_ready_state_fields x) as (_ & _ & _ & _ & _ & ->) end.
  reflexivity.
Qed.

End ClearFacts.

(** C9. Whatever the form holds, [clear_all] leaves no selected file, no
    preview (neither the kept image nor the one shown), and an empty title,
    category, tags entry and description: the fields are those of the form
    as [setup_ui] first builds it. The remembered metadata is emptied, the
    file label and the status are back to their first texts, and both
    buttons are disabled. *)
Theorem clear_all_resets_form :
  forall f : Form.form,
    Form.selected_image_path (Form.clear_all f) = None
    /\ Form.preview_image (Form.clear_all f) = None
    /\ Form.preview_label (Form.clear_all f) = (None, "No image selected")
    /\ Form.title_entry (Form.clear_all f) = ""
    /\ Form.category_var (Form.clear_all f) = ""
    /\ Form.tags_entry (Form.clear_all f) = ""
    /\ Form.description_text (Form.clear_all f) = ""
    /\ (forall gemini_api_key,
          Spec.entered (Form.clear_all f) = Spec.entered (Form.setup_ui gemini_api_key))
    /\ Form.generated_metadata (Form.clear_all f) = PyDict []
    /\ Form.image_path_label (Form.clear_all f) = ("No image selected", "gray")
    /\ Form.status_label (Form.clear_all f) = ("Ready", "green")
    /\ Form.publish_btn (Form.clear_all f) = Form.DISABLED
    /\ Form.generate_btn (Form.clear_all f) = Form.DISABLED.
Proof.
  intros f.
  pose proof (ClearFacts.clear_all_entered f) as He.
  destruct (ClearFacts.clear_all_buttons f) as (Hp & Hg).
  destruct (ClearFacts.clear_all_rest f) as (Hm & Hl & Hs).
  unfold Spec.entered, Spec.idle_fields in He.
  injection He as H1 H2 H3 H4 H5 H6 H7.
  repeat split; try assumption.
  intros key. rewrite ClearFacts.clear_all_entered, ClearFacts.setup_ui_idle. reflexivity.
Qed.

(** * Filling the form from a describe result *)

Module MetadataFacts.
Import PyStr Form ReadyFacts Spec.

Lemma str_items_strs ss i : Ai.str_items (List.map PyStr ss) i = Ok ss.
Proof.
  revert i. induction ss as [|s ss IH]; intros i; simpl; [reflexivity|].
  rewrite IH. reflexivity.
Qed.

Lemma join_tags_strs ss : Ai.join_tags (PyList (List.map PyStr ss)) = Ok (join ", " ss).
Proof. unfold Ai.join_tags. rewrite str_items_strs. reflexivity. Qed.

(** The four fields after a result whose title, category and description
    are strings and whose tags can be joined. *)
Lemma update_metadata_ui_ok tcl_string d title category description joined f :
  dict_get d "title" (PyStr "") = PyStr title ->
  dict_get d "category" (PyStr "") = PyStr category ->
  dict_get d "description" (PyStr "") = PyStr description ->
  Ai.join_tags (dict_get d "tags" (PyList [])) = Ok joined ->
  let f' := Ai._update_metadata_ui tcl_string (PyDict d) f in
  title_entry f' = title
  /\ category_var f' = category
  /\ tags_entry f' = joined
  /\ description_text f' = description
  /\ generated_metadata f' = PyDict d.
Proof.
  intros Gt Gc Gd Hj f'. subst f'. unfold Ai._update_metadata_ui.
  rewrite Gt, Gc, Gd, Hj. cbv zeta. cbn [Ai.widget_text].
  match goal with |- context [check_ready_state ?x] => set (filled := x) end.
  destruct (check_ready_state_fields filled) as (He & _ & Hm & _).
  unfold Spec.entered in He. injection He as _ _ _ Ht Hc Hg Hd.
  rewrite Ht, Hc, Hg, Hd, Hm. subst filled. simpl.
  unfold insert_at_start, delete_all. rewrite !StrFacts.append_empty_r.
  repeat split; reflexivity.
Qed.

Lemma describe_result_get title description category tags :
  exists d,
    Spec.describe_result title description category tags = PyDict d
    /\ dict_get d "title" (PyStr "") = PyStr (Spec.or_empty title)
    /\ dict_get d "description" (PyStr "") = PyStr (Spec.or_empty description)
    /\ dict_get d "category" (PyStr "") = PyStr (Spec.or_empty category)
    /\ dict_get d "tags" (PyList []) = PyList (List.map PyStr (tags_or_none tags)).
Proof.
  eexists. split; [reflexivity|].
  destruct title, description, category, tags; repeat split; reflexivity.
Qed.

End MetadataFacts.

(** C4. Whatever the fields held, applying the describe result with title
    T, description D, category nature and tags a, b leaves the title entry
    at exactly T, the category at nature, the tags entry at the tags joined
    with a comma and a space, and the description at D. The same holds for
    any result whose values have the expected types, a key that is missing
    giving the empty text (and no tags): nothing of the former content
    survives. *)
Theorem describe_result_overwrites_fields :
  forall (tcl_string : pyval -> result string) (f : Form.form),
    (let f' :=
       Ai._update_metadata_ui tcl_string
         (PyDict [("title", PyStr "T"); ("description", PyStr "D");
                  ("category", PyStr "nature"); ("tags", PyList [PyStr "a"; PyStr "b"])])
         f in
     Form.title_entry f' = "T"
     /\ Form.category_var f' = "nature"
     /\ Form.tags_entry f' = "a, b"
     /\ Form.description_text f' = "D")
    /\ forall title description category tags,
        let f' :=
          Ai._update_metadata_ui tcl_string
            (Spec.describe_result title description category tags) f in
        Form.title_entry f' = Spec.or_empty title
        /\ Form.category_var f' = Spec.or_empty category
        /\ Form.tags_entry f' = PyStr.join ", " (Spec.tags_or_none tags)
        /\ Form.description_text f' = Spec.or_empty description.
Proof.
  intros tcl_string f. split.
  - destruct (MetadataFacts.update_metadata_ui_ok tcl_string
                [("title", PyStr "T"); ("description", PyStr "D");
                 ("category", PyStr "nature"); ("tags", PyList [PyStr "a"; PyStr "b"])]
                "T" "nature" "D" "a, b" f eq_refl eq_refl eq_refl eq_refl)
      as (Ht & Hc & Hg & Hd & _).
    cbv zeta. rewrite Ht, Hc, Hg, Hd. repeat split; reflexivity.
  - intros title description category tags.
    destruct (MetadataFacts.describe_result_get title description category tags)
      as (d & -> & Gt & Gd & Gc & Gg).
    destruct (MetadataFacts.update_metadata_ui_ok tcl_string d
                (Spec.or_empty title) (Spec.or_empty category) (Spec.or_empty description)
                (PyStr.join ", " (Spec.tags_or_none tags)) f Gt Gc Gd)
      as (Ht & Hc & Hg & Hd & _).
    { rewrite Gg. apply MetadataFacts.join_tags_strs. }
    cbv zeta. rewrite Ht, Hc, Hg, Hd. repeat split; reflexivity.
Qed.

(** * Reading a fenced reply *)

Module FenceFacts.
Import PyStr Spec.

Lemma prefix_append p s : String.prefix p (p +:+ s) = true.
Proof.
  induction p as [|c p IH]; [destruct s; reflexivity|].
  rewrite StrFacts.append_cons. simpl.
  destruct (ascii_dec c c) as [_|Hne]; [exact IH | contradiction].
Qed.

Lemma substring_skip p n s :
  String.substring (String.length p) n (p +:+ s) = String.substring 0 n s.
Proof.
  induction p as [|c p IH]; [reflexivity|].
  rewrite StrFacts.append_cons. simpl. exact IH.
Qed.

Lemma substring_take s t :
  String.substring 0 (String.length s) (s +:+ t) = s.
Proof.
  induction s as [|c s IH]; [destruct t; reflexivity|].
  rewrite StrFacts.append_cons. simpl. rewrite IH. reflexivity.
Qed.

(** A slice that removes a known prefix and a known suffix. *)
Lemma slice_between p q s :
  slice (String.length p) (String.length q) (p +:+ s +:+ q) = s.
Proof.
  unfold slice. rewrite !StrFacts.length_append.
  replace (String.length p + (String.length s + String.length q)
           - String.length q - String.length p) with (String.length s) by lia.
  rewrite substring_skip. apply substring_take.
Qed.

Lemma json_ws_isspace c : Spec.json_ws c = true -> isspace c = true.
Proof.
  destruct c as [[] [] [] [] [] [] [] []]; intros H; try reflexivity; discriminate H.
Qed.

Lemma all_json_ws_isspace s :
  all_chars Spec.json_ws s = true -> all_chars isspace s = true.
Proof.
  induction s as [|c s IH]; simpl; [reflexivity|].
  rewrite !andb_true_iff. intros [Hc Hs]. split; [apply json_ws_isspace, Hc | apply IH, Hs].
Qed.

(** Stripping a text wrapped in characters that are all stripped. *)
Lemma strip_by_app_all p s t :
  all_chars p t = true -> strip_by p (s +:+ t) = strip_by p s.
Proof.
  intros Ht. unfold strip_by. induction s as [|c s IH].
  - rewrite StrFacts.append_empty_l, (StrFacts.lstrip_by_all p t Ht). reflexivity.
  - rewrite StrFacts.append_cons. simpl. destruct (p c); [exact IH|].
    rewrite <- StrFacts.append_cons. apply StrFacts.rstrip_by_app_all, Ht.
Qed.

Lemma strip_by_wrapped p l s t :
  all_chars p l = true -> all_chars p t = true ->
  strip_by p (l +:+ s +:+ t) = strip_by p s.
Proof.
  intros Hl Ht. rewrite <- StrFacts.append_assoc, (strip_by_app_all p _ t Ht).
  unfold strip_by. rewrite (StrFacts.lstrip_by_app_all p l s Hl). reflexivity.
Qed.

(** A text kept whole by [strip]: it neither starts nor ends with
    whitespace. *)
Lemma strip_by_keeps p c s d :
  p c = false -> p d = false ->
  strip_by p (String c (s +:+ String d "")) = String c (s +:+ String d "").
Proof.
  intros Hc Hd. unfold strip_by. simpl lstrip_by. rewrite Hc.
  rewrite <- StrFacts.append_cons.
  assert (Hk : rstrip_by p (String d "") = String d "") by (simpl; rewrite Hd; reflexivity).
  rewrite StrFacts.rstrip_by_app_keep; rewrite Hk; [reflexivity | discriminate].
Qed.

Lemma strip_object_text lead body trail :
  all_chars Spec.json_ws lead = true ->
  all_chars Spec.json_ws trail = true ->
  strip (Spec.object_text lead body trail) = "{" +:+ body +:+ "}".
Proof.
  intros Hl Ht. unfold strip, Spec.object_text.
  replace ("{" +:+ body +:+ "}" +:+ trail) with (("{" +:+ body +:+ "}") +:+ trail)
    by (rewrite !StrFacts.append_assoc; reflexivity).
  rewrite strip_by_wrapped by (apply all_json_ws_isspace; assumption).
  apply (strip_by_keeps isspace "{" body "}"); reflexivity.
Qed.

Lemma strip_fenced before opening s after :
  all_chars isspace before = true ->
  all_chars isspace after = true ->
  strip (before +:+ ("```" +:+ opening +:+ s +:+ "```") +:+ after)
  = "```" +:+ opening +:+ s +:+ "```".
Proof.
  intros Hb Ha. unfold strip. rewrite strip_by_wrapped by assumption.
  replace ("```" +:+ opening +:+ s +:+ "```")
    with (String "`" (("``" +:+ opening +:+ s +:+ "``") +:+ String "`" ""))
    by (rewrite !StrFacts.append_assoc; reflexivity).
  apply strip_by_keeps; reflexivity.
Qed.

Lemma prefix_cons a p b s :
  String.prefix (String a p) (String b s)
  = if ascii_dec a b then String.prefix p s else false.
Proof. reflexivity. Qed.

(** No object text starts like the language tag of a fence. *)
Lemma object_text_not_json lead body trail rest :
  all_chars Spec.json_ws lead = true ->
  String.prefix "json" (Spec.object_text lead body trail +:+ rest) = false.
Proof.
  intros H. unfold Spec.object_text. destruct lead as [|c lead]; [reflexivity|].
  rewrite !StrFacts.append_cons.
  change "json" with (String "j" "son"). rewrite prefix_cons.
  destruct (ascii_dec "j" c) as [<-|_]; [|reflexivity].
  simpl in H. discriminate H.
Qed.

(** The text handed to [json.loads] in the three cases. *)
Lemma unfence_object_text lead body trail :
  all_chars Spec.json_ws lead = true ->
  all_chars Spec.json_ws trail = true ->
  Ai.unfence (Spec.object_text lead body trail) = "{" +:+ body +:+ "}".
Proof.
  intros Hl Ht. unfold Ai.unfence. rewrite strip_object_text by assumption. reflexivity.
Qed.

Lemma unfence_json_fence before s after :
  all_chars isspace before = true ->
  all_chars isspace after = true ->
  Ai.unfence (before +:+ ("```json" +:+ s +:+ "```") +:+ after) = s.
Proof.
  intros Hb Ha. unfold Ai.unfence.
  change ("```json" +:+ s +:+ "```") with ("```" +:+ "json" +:+ s +:+ "```").
  rewrite strip_fenced by assumption.
  change ("```" +:+ "json" +:+ s +:+ "```") with ("```json" +:+ s +:+ "```").
  unfold startswith. rewrite prefix_append.
  apply (slice_between "```json" "```" s).
Qed.

Lemma unfence_plain_fence before lead body trail after :
  all_chars isspace before = true ->
  all_chars isspace after = true ->
  all_chars Spec.json_ws lead = true ->
  Ai.unfence (before +:+ ("```" +:+ Spec.object_text lead body trail +:+ "```") +:+ after)
  = Spec.object_text lead body trail.
Proof.
  intros Hb Ha Hl. unfold Ai.unfence.
  pose proof (strip_fenced before "" (Spec.object_text lead body trail) after Hb Ha) as Hs.
  rewrite StrFacts.append_empty_l in Hs. rewrite Hs.
  unfold startswith.
  replace (String.prefix "```json" ("```" +:+ Spec.object_text lead body trail +:+ "```"))
    with (String.prefix "json" (Spec.object_text lead body trail +:+ "```"))
    by reflexivity.
  pose proof (object_text_not_json lead body trail "```" Hl) as Hj.
  rewrite Hj, prefix_append.
  apply (slice_between "```" "```").
Qed.

Lemma loads_empty_object_skips_ws : Spec.skips_ws Spec.loads_empty_object.
Proof.
  intros lead s trail v Hl Ht. unfold Spec.loads_empty_object.
  rewrite strip_by_wrapped by assumption. reflexivity.
Qed.

End FenceFacts.

(** C3. For a JSON object text (a braced body, possibly surrounded by
    JSON whitespace) and a decoder that, like [json.loads], ignores the JSON
    whitespace around a text: the reply made of the text between a json
    fence and a closing fence, possibly with whitespace around the fences,
    parses to a value exactly when the text alone parses to that value; the
    same holds with plain fences. *)
Theorem fenced_reply_parses_as_unfenced :
  forall json_loads : string -> result pyval,
    Spec.skips_ws json_loads ->
    forall lead body trail : string,
      PyStr.all_chars Spec.json_ws lead = true ->
      PyStr.all_chars Spec.json_ws trail = true ->
      forall before after : string,
        PyStr.all_chars PyStr.isspace before = true ->
        PyStr.all_chars PyStr.isspace after = true ->
        forall v : pyval,
          (Ai.parse_response json_loads
             (before +:+ ("```json" +:+ Spec.object_text lead body trail +:+ "```") +:+ after)
           = Ok v
           <-> Ai.parse_response json_loads (Spec.object_text lead body trail) = Ok v)
          /\ (Ai.parse_response json_loads
                (before +:+ ("```" +:+ Spec.object_text lead body trail +:+ "```") +:+ after)
              = Ok v
              <-> Ai.parse_response json_loads (Spec.object_text lead body trail) = Ok v).
Proof.
  intros json_loads Hws lead body trail Hl Ht before after Hb Ha v.
  unfold Ai.parse_response.
  rewrite FenceFacts.unfence_json_fence by assumption.
  rewrite FenceFacts.unfence_plain_fence by assumption.
  rewrite FenceFacts.unfence_object_text by assumption.
  assert (H : json_loads (Spec.object_text lead body trail) = Ok v
              <-> json_loads ("{" +:+ body +:+ "}") = Ok v).
  { unfold Spec.object_text.
    replace ("{" +:+ body +:+ "}" +:+ trail) with (("{" +:+ body +:+ "}") +:+ trail)
      by (rewrite !StrFacts.append_assoc; reflexivity).
    apply Hws; assumption. }
  split; exact H.
Qed.

Lemma fenced_reply_parses_as_unfenced_witness :
  let newline := String "010"%char "" in
  let text := Spec.object_text newline "" newline in
  (Ai.parse_response Spec.loads_empty_object
     (" " +:+ ("```json" +:+ text +:+ "```") +:+ newline) = Ok (PyDict [])
   <-> Ai.parse_response Spec.loads_empty_object text = Ok (PyDict []))
  /\ (Ai.parse_response Spec.loads_empty_object
        (" " +:+ ("```" +:+ text +:+ "```") +:+ newline) = Ok (PyDict [])
      <-> Ai.parse_response Spec.loads_empty_object text = Ok (PyDict [])).
Proof.
  exact (fenced_reply_parses_as_unfenced
           Spec.loads_empty_object FenceFacts.loads_empty_object_skips_ws
           (String "010"%char "") "" (String "010"%char "") eq_refl eq_refl
           " " (String "010"%char "") eq_refl eq_refl (PyDict [])).
Defined.

(** * The publishing thread *)

Module PublishFacts.
Import PyStr Form Publish Spec.

Ltac no_success H :=
  simpl in H; repeat (destruct H as [H|H]; [discriminate H|]); contradiction.

Lemma thread_success_inv environ f o url :
  In (PublishSuccess url) (snd (_publish_wallpaper_thread environ f o)) ->
  exists path data,
    selected_image_path f = Some path
    /\ Spec.upload_succeeds f o
    /\ supabase_client f = true
    /\ insert_execute o = Ok data /\ data_truthy data = true.
Proof.
  unfold _publish_wallpaper_thread, Spec.upload_succeeds. cbv zeta.
  destruct (selected_image_path f) as [path|]; [|intros H; no_success H].
  destruct (open_file o); [intros H; no_success H|].
  destruct (r2_client f); simpl negb; cbv iota; [|intros H; no_success H].
  destruct (upload_fileobj o); [intros H; no_success H|].
  destruct (supabase_client f); simpl negb; cbv iota; [|intros H; no_success H].
  destruct (insert_execute o) as [data|e]; [|intros H; no_success H].
  destruct (data_truthy data) eqn:Hd; [|intros H; no_success H].
  intros _. exists path, data. repeat split; reflexivity || assumption.
Qed.

Lemma thread_success environ f o path data :
  selected_image_path f = Some path ->
  Spec.upload_succeeds f o ->
  supabase_client f = true ->
  insert_execute o = Ok data -> data_truthy data = true ->
  _publish_wallpaper_thread environ f o
  = ([upload_of environ path o; TableInsert "wallpapers" (row_of environ f path o)],
     saving ++ [PublishSuccess (image_url (row_of environ f path o)); ProgressStop]).
Proof.
  intros Hp (Ho & Hr & Hu) Hs Hi Hd. unfold _publish_wallpaper_thread.
  rewrite Hp, Ho, Hr, Hu, Hs, Hi, Hd. reflexivity.
Qed.

Lemma thread_upload_raises environ f o path e :
  selected_image_path f = Some path ->
  Spec.upload_raises f o e ->
  snd (_publish_wallpaper_thread environ f o) = started ++ [PublishError e; ProgressStop]
  /\ (fst (_publish_wallpaper_thread environ f o) = []
      \/ fst (_publish_wallpaper_thread environ f o) = [upload_of environ path o]).
Proof.
  intros Hp H. unfold _publish_wallpaper_thread. rewrite Hp.
  destruct H as [Ho | [(Ho & Hr & ->) | (Ho & Hr & Hu)]].
  - rewrite Ho. split; [reflexivity | left; reflexivity].
  - rewrite Ho, Hr. split; [reflexivity | left; reflexivity].
  - rewrite Ho, Hr, Hu. split; [reflexivity | right; reflexivity].
Qed.

Lemma thread_insert_fails environ f o path e :
  selected_image_path f = Some path ->
  Spec.upload_succeeds f o ->
  Spec.insert_fails f o e ->
  _publish_wallpaper_thread environ f o
  = ([upload_of environ path o; TableInsert "wallpapers" (row_of environ f path o)],
     saving ++ [PublishError e; ProgressStop]).
Proof.
  intros Hp (Ho & Hr & Hu) (Hs & [Hi | (Hi & ->)]); unfold _publish_wallpaper_thread;
    rewrite Hp, Ho, Hr, Hu, Hs, Hi; reflexivity.
Qed.

(** An insert is only ever issued after an upload that completed. *)
Lemma insert_needs_upload environ f o :
  Spec.inserted_rows (fst (_publish_wallpaper_thread environ f o)) <> [] ->
  Spec.upload_succeeds f o.
Proof.
  unfold _publish_wallpaper_thread, Spec.upload_succeeds. cbv zeta.
  destruct (selected_image_path f) as [path|]; [|intros H; exfalso; apply H; reflexivity].
  destruct (open_file o); [intros H; exfalso; apply H; reflexivity|].
  destruct (r2_client f); simpl negb; cbv iota; [|intros H; exfalso; apply H; reflexivity].
  destruct (upload_fileobj o); [intros H; exfalso; apply H; reflexivity|].
  intros _. repeat split; reflexivity.
Qed.

Section WithLibraries.

Variable tcl_string : pyval -> result string.

(** Stopping or starting the progress bar touches nothing else. *)
Lemma set_progress_bar_same b g :
  Spec.entered (set_progress_bar b g) = Spec.entered g
  /\ generated_metadata (set_progress_bar b g) = generated_metadata g
  /\ image_path_label (set_progress_bar b g) = image_path_label g
  /\ status_label (set_progress_bar b g) = status_label g
  /\ publish_btn (set_progress_bar b g) = publish_btn g
  /\ generate_btn (set_progress_bar b g) = generate_btn g
  /\ progress_bar (set_progress_bar b g) = b
  /\ dialogs (set_progress_bar b g) = dialogs g.
Proof. repeat split; reflexivity. Qed.

(** The form after the callbacks of a failed run: whenever the error
    callback runs, nothing the operator entered is touched. *)
Lemma run_failure_fields e_bound scheduled e f :
  scheduled = started \/ scheduled = saving ->
  let f' :=
    Ai.run_callbacks tcl_string e_bound (scheduled ++ [PublishError e; ProgressStop]) f in
  Spec.entered f' = Spec.entered f
  /\ generated_metadata f' = generated_metadata f
  /\ image_path_label f' = image_path_label f.
Proof.
  intros [-> | ->]; destruct e_bound; cbv zeta; repeat split; reflexivity.
Qed.

(** The error callback runs while the [except] clause is still running:
    the error is shown. *)
Lemma run_failure_reported scheduled e f :
  scheduled = started \/ scheduled = saving ->
  let f' :=
    Ai.run_callbacks tcl_string true (scheduled ++ [PublishError e; ProgressStop]) f in
  status_label f' = ("Publishing failed: " +:+ e, "red")
  /\ dialogs f'
     = dialogs f ++ [ShowError "Publishing Error" ("Failed to publish wallpaper: " +:+ e)].
Proof.
  intros [-> | ->]; cbv zeta; split; reflexivity.
Qed.

(** The error callback runs once the [except] clause is over: nothing is
    shown, the status stays at the last progress message. *)
Lemma run_failure_lost scheduled e f :
  scheduled = started \/ scheduled = saving ->
  let f' :=
    Ai.run_callbacks tcl_string false (scheduled ++ [PublishError e; ProgressStop]) f in
  (exists message, status_label f' = (message, "blue"))
  /\ dialogs f' = dialogs f.
Proof.
  intros [-> | ->]; cbv zeta; (split; [eexists|]); reflexivity.
Qed.

(** The form after the callbacks of a successful run. *)
Lemma run_success e_bound url f :
  let f' :=
    Ai.run_callbacks tcl_string e_bound (saving ++ [PublishSuccess url; ProgressStop]) f in
  Spec.entered f' = idle_fields
  /\ generated_metadata f' = PyDict []
  /\ image_path_label f' = ("No image selected", "gray")
  /\ status_label f' = ("Ready", "green")
  /\ publish_btn f' = DISABLED
  /\ generate_btn f' = DISABLED
  /\ progress_bar f' = false
  /\ dialogs f'
     = dialogs f ++ [ShowInfo "Success"
                       ("Wallpaper published successfully!" +:+ String "010"%char ""
                        +:+ "URL: " +:+ url)].
Proof.
  cbv zeta. unfold Ai.run_callbacks, saving, started. simpl List.fold_left.
  unfold _publish_success.
  match goal with |- context [clear_all ?x] => remember x as shown eqn:Eshown end.
  destruct (set_progress_bar_same false (clear_all shown))
    as (-> & -> & -> & -> & -> & -> & -> & ->).
  rewrite ClearFacts.clear_all_entered, ClearFacts.clear_all_dialogs.
  destruct (ClearFacts.clear_all_buttons shown) as (-> & ->).
  destruct (ClearFacts.clear_all_rest shown) as (-> & -> & ->).
  subst shown.
  split; [reflexivity|]. split; [reflexivity|]. split; [reflexivity|].
  split; [reflexivity|]. split; [reflexivity|]. split; [reflexivity|].
  split; reflexivity.
Qed.

(** Whenever the upload statement raises: no insert is issued, the error
    callback is scheduled, and whenever that callback runs the selected
    file, the preview, the title, the category, the tags and the
    description are what they were. The error is shown if the callback runs
    while the [except] clause is still running. *)
Lemma upload_failure_skips_insert environ f o path e :
  selected_image_path f = Some path ->
  Spec.upload_raises f o e ->
  let calls := fst (_publish_wallpaper_thread environ f o) in
  let scheduled := snd (_publish_wallpaper_thread environ f o) in
  let f' := Ai.run_callbacks tcl_string (e_bound o) scheduled f in
  inserted_rows calls = []
  /\ (calls = [] \/ calls = [upload_of environ path o])
  /\ scheduled = started ++ [PublishError e; ProgressStop]
  /\ Spec.entered f' = Spec.entered f
  /\ (e_bound o = true ->
      status_label f' = ("Publishing failed: " +:+ e, "red")
      /\ dialogs f'
         = dialogs f
           ++ [ShowError "Publishing Error" ("Failed to publish wallpaper: " +:+ e)])
  /\ (e_bound o = false ->
      status_label f' = ("Uploading to R2...", "blue") /\ dialogs f' = dialogs f).
Proof.
  intros Hp Hr calls scheduled f'.
  destruct (thread_upload_raises environ f o path e Hp Hr) as (Hs & Hc).
  fold calls in Hc. fold scheduled in Hs. subst f'. rewrite Hs.
  split; [destruct Hc as [-> | ->]; reflexivity|].
  split; [exact Hc|]. split; [reflexivity|].
  split; [apply (run_failure_fields (e_bound o) started e f); left; reflexivity|].
  split; intros ->.
  - apply (run_failure_reported started e f). left. reflexivity.
  - split; reflexivity.
Qed.

End WithLibraries.

End PublishFacts.

(** C5. When the publishing thread reports success for a selected file
    whose extension is .png, with the public base URL configured: the
    upload completed; the remote calls are exactly one upload, under the
    generated identifier followed by .png and with content type image/png,
    and then one insert whose row carries the base URL, a slash and that
    object name as its image URL; this is the URL reported. Under any
    outcome an insert is issued only after an upload that completed. Once
    the scheduled callbacks have run the form is back to the fields
    [setup_ui] builds, with both buttons disabled. *)
Theorem successful_publish_uploads_then_inserts :
  forall (tcl_string : pyval -> result string) (environ : gmap string string)
         (f : Form.form) (o : Publish.outcomes) (public_url path base : string),
    In (PublishSuccess public_url) (snd (Publish._publish_wallpaper_thread environ f o)) ->
    Form.selected_image_path f = Some path ->
    PyStr.suffix path = ".png" ->
    Env.getenv environ "R2_PUBLIC_URL" = Some base ->
    let name := Publish.uuid4 o +:+ ".png" in
    let f' :=
      Ai.run_callbacks tcl_string (Publish.e_bound o)
        (snd (Publish._publish_wallpaper_thread environ f o)) f in
    Spec.upload_succeeds f o
    /\ fst (Publish._publish_wallpaper_thread environ f o)
       = [ Publish.UploadFileobj path (Env.getenv environ "R2_BUCKET_NAME") name "image/png";
           Publish.TableInsert "wallpapers"
             {| Publish.title := PyStr.strip (Form.title_entry f);
                Publish.description :=
                  PyStr.strip (Form.text_get_all (Form.description_text f));
                Publish.category := PyStr.strip (Form.category_var f);
                Publish.tags := Publish.tags_of_entry (Form.tags_entry f);
                Publish.image_url := base +:+ "/" +:+ name |} ]
    /\ public_url = base +:+ "/" +:+ name
    /\ (forall o',
          Spec.inserted_rows (fst (Publish._publish_wallpaper_thread environ f o')) <> []
          -> Spec.upload_succeeds f o')
    /\ Spec.entered f' = Spec.entered (Form.setup_ui "")
    /\ Form.generated_metadata f' = PyDict []
    /\ Form.publish_btn f' = Form.DISABLED
    /\ Form.generate_btn f' = Form.DISABLED.
Proof.
  intros tcl_string environ f o public_url path base Hin Hp Hsuf Hbase name f'.
  destruct (PublishFacts.thread_success_inv environ f o public_url Hin)
    as (path' & data & Hp' & Hup & Hs & Hi & Hd).
  assert (path' = path) by congruence. subst path'.
  pose proof (PublishFacts.thread_success environ f o path data Hp Hup Hs Hi Hd) as Ht.
  subst f'. rewrite Ht in *. clear Ht.
  unfold Spec.upload_of, Spec.row_of in *. cbn [fst snd Publish.image_url] in *.
  rewrite Hsuf, Hbase in *. cbn [Publish.fstr PyStr.tail] in *.
  split; [exact Hup|]. split; [reflexivity|]. split.
  { unfold Spec.saving, Spec.started in Hin. simpl in Hin.
    destruct Hin as [H|[H|[H|[H|[H|H]]]]]; try discriminate H; try contradiction.
    injection H as <-. reflexivity. }
  split; [intros o'; apply PublishFacts.insert_needs_upload|].
  destruct (PublishFacts.run_success tcl_string (Publish.e_bound o)
              (base +:+ "/" +:+ name) f)
    as (He & Hm & _ & _ & Hpb & Hgb & _).
  fold name. rewrite He, Hm, Hpb, Hgb. repeat split; reflexivity.
Qed.

Lemma successful_publish_witness :
  fst (Publish._publish_wallpaper_thread Samples.dotenv_seven Samples.filled Samples.all_fine)
  = [ Publish.UploadFileobj "/home/u/photo.png"
        (Env.getenv Samples.dotenv_seven "R2_BUCKET_NAME")
        (Publish.uuid4 Samples.all_fine +:+ ".png") "image/png";
      Publish.TableInsert "wallpapers"
        {| Publish.title := PyStr.strip (Form.title_entry Samples.filled);
           Publish.description :=
             PyStr.strip (Form.text_get_all (Form.description_text Samples.filled));
           Publish.category := PyStr.strip (Form.category_var Samples.filled);
           Publish.tags := Publish.tags_of_entry (Form.tags_entry Samples.filled);
           Publish.image_url :=
             "https://cdn.example.org" +:+ "/"
             +:+ (Publish.uuid4 Samples.all_fine +:+ ".png") |} ].
Proof.
  refine (proj1 (proj2
    (successful_publish_uploads_then_inserts Samples.no_text
       Samples.dotenv_seven Samples.filled Samples.all_fine
       "https://cdn.example.org/123e4567-e89b-42d3-a456-426614174000.png"
       "/home/u/photo.png" "https://cdn.example.org" _ _ _ _))).
  - vm_compute. right. right. right. left. reflexivity.
  - vm_compute. reflexivity.
  - vm_compute. reflexivity.
  - vm_compute. reflexivity.
Defined.

(** C6, at a publish of [photo.png] whose upload is refused, the worker
    thread having left its [except] clause when the interactive thread runs
    the error callback: no insert is issued and nothing entered is reset,
    but no failure is reported, the status still reads as the upload in
    progress and no dialog is shown. When the callback runs in time, the
    status does carry the text of the error. *)
Theorem upload_failure_report_lost :
  let late :=
    Publish.publish_wallpaper Samples.no_text Samples.dotenv_seven
      Samples.upload_refused_late Samples.filled in
  let in_time :=
    Publish.publish_wallpaper Samples.no_text Samples.dotenv_seven
      Samples.upload_refused Samples.filled in
  Spec.inserted_rows (fst late) = []
  /\ Spec.entered (snd late) = Spec.entered Samples.filled
  /\ Form.status_label (snd late) = ("Uploading to R2...", "blue")
  /\ Form.dialogs (snd late) = Form.dialogs Samples.filled
  /\ Form.status_label (snd in_time)
     = ("Publishing failed: An error occurred (AccessDenied)", "red").
Proof.
  vm_compute. repeat split; reflexivity.
Qed.

(** C7. When the upload completed and the insert is issued but raises, or
    returns no row, the attempt ends as a failure: the thread schedules the
    error callback and never the success one, a missing row being turned
    into a failed insert although nothing raised, and nothing entered is
    reset. The remote calls are the upload and the insert and nothing after
    them: the stored object is not deleted. The status and an error dialog
    carry the error when the callback runs while the [except] clause is
    still running. *)
Theorem insert_failure_leaves_object :
  forall (tcl_string : pyval -> result string) (environ : gmap string string)
         (f : Form.form) (o : Publish.outcomes) (path e : string),
    Form.selected_image_path f = Some path ->
    Spec.upload_succeeds f o ->
    Spec.insert_fails f o e ->
    let calls := fst (Publish._publish_wallpaper_thread environ f o) in
    let scheduled := snd (Publish._publish_wallpaper_thread environ f o) in
    let f' := Ai.run_callbacks tcl_string (Publish.e_bound o) scheduled f in
    calls = [ Spec.upload_of environ path o;
              Publish.TableInsert "wallpapers" (Spec.row_of environ f path o) ]
    /\ scheduled = Spec.saving ++ [PublishError e; ProgressStop]
    /\ (forall url, ~ In (PublishSuccess url) scheduled)
    /\ (Publish.insert_execute o = Ok [] -> e = "Failed to insert into database")
    /\ Spec.entered f' = Spec.entered f
    /\ (Publish.e_bound o = true ->
        Form.status_label f' = ("Publishing failed: " +:+ e, "red")
        /\ Form.dialogs f'
           = Form.dialogs f
             ++ [Form.ShowError "Publishing Error" ("Failed to publish wallpaper: " +:+ e)]).
Proof.
  intros tcl_string environ f o path e Hp Hu Hi calls scheduled f'.
  pose proof (PublishFacts.thread_insert_fails environ f o path e Hp Hu Hi) as Ht.
  subst calls scheduled f'. rewrite Ht. cbn [fst snd].
  split; [reflexivity|]. split; [reflexivity|]. split.
  { intros url H. unfold Spec.saving, Spec.started in H. simpl in H.
    repeat (destruct H as [H|H]; [discriminate H|]). contradiction. }
  split.
  { intros Hnone. destruct Hi as (_ & [Hraise | (_ & ->)]); [congruence | reflexivity]. }
  split.
  { apply (PublishFacts.run_failure_fields tcl_string (Publish.e_bound o) Spec.saving e f).
    right. reflexivity. }
  intros ->.
  apply (PublishFacts.run_failure_reported tcl_string Spec.saving e f). right. reflexivity.
Qed.

Lemma insert_failure_witness :
  snd (Publish._publish_wallpaper_thread
         Samples.dotenv_seven Samples.filled Samples.no_row_back)
  = Spec.saving ++ [PublishError "Failed to insert into database"; ProgressStop].
Proof.
  refine (proj1 (proj2
    (insert_failure_leaves_object Samples.no_text
       Samples.dotenv_seven Samples.filled Samples.no_row_back
       "/home/u/photo.png" "Failed to insert into database" _ _ _))).
  - vm_compute. reflexivity.
  - vm_compute. repeat split; reflexivity.
  - vm_compute. split; [reflexivity | right; split; reflexivity].
Defined.

(** * Start-up validation *)

Module EnvFacts.
Import Env.

Lemma missing_vars_spec environ var :
  In var (missing_vars environ)
  <-> In var required_vars /\ truthy_opt (getenv environ var) = false.
Proof.
  unfold missing_vars. rewrite filter_In, negb_true_iff. reflexivity.
Qed.

(** With a configuration file, start-up is refused exactly when one of the
    six validated variables is unset or empty, and the message lists those,
    in the order of [required_vars]. *)
Lemma load_environment_exit file environ message :
  load_environment (Some file) environ = Exit message
  <-> missing_vars (load_dotenv file environ) <> []
      /\ message = "Missing environment variables: "
                   +:+ PyStr.join ", " (missing_vars (load_dotenv file environ)).
Proof.
  unfold load_environment.
  destruct (missing_vars (load_dotenv file environ)) as [|var vars]; split.
  - discriminate.
  - intros (H & _). contradiction.
  - intros H. injection H as <-. split; [discriminate | reflexivity].
  - intros (_ & ->). reflexivity.
Qed.

Lemma public_url_not_required : ~ In "R2_PUBLIC_URL" required_vars.
Proof.
  unfold required_vars. simpl.
  intros H. repeat (destruct H as [H|H]; [discriminate H|]). exact H.
Qed.

(** The public base URL is never among the names reported. *)
Lemma public_url_never_reported environ : ~ In "R2_PUBLIC_URL" (missing_vars environ).
Proof.
  rewrite missing_vars_spec. intros (H & _). exact (public_url_not_required H).
Qed.

End EnvFacts.

(** C1, at a configuration file that sets the six validated variables and
    omits the public base URL: the variable is unset, yet
    [load_environment] lets start-up proceed instead of reporting it (its
    list of required names does not contain it, so it can never be
    reported), and a publish that succeeds in that environment records an
    image URL that starts with the text None. *)
Theorem startup_accepts_missing_public_url :
  Env.getenv (Env.load_dotenv Samples.dotenv_six ∅) "R2_PUBLIC_URL" = None
  /\ Env.load_environment (Some Samples.dotenv_six) ∅
     = Env.Loaded (Env.load_dotenv Samples.dotenv_six ∅) ""
  /\ (forall environ, ~ In "R2_PUBLIC_URL" (Env.missing_vars environ))
  /\ List.map Publish.image_url
       (Spec.inserted_rows
          (fst (Publish._publish_wallpaper_thread
                  (Env.load_dotenv Samples.dotenv_six ∅) Samples.filled Samples.all_fine)))
     = ["None/123e4567-e89b-42d3-a456-426614174000.png"].
Proof.
  split; [vm_compute; reflexivity|].
  split; [vm_compute; reflexivity|].
  split; [exact EnvFacts.public_url_never_reported|].
  vm_compute. reflexivity.
Qed.

(** * Worked examples *)

Example strip_ex : PyStr.strip "  a b  " = "a b".
Proof. reflexivity. Qed.

Example split_ex : PyStr.split "," "a,,b," = ["a"; ""; "b"; ""].
Proof. reflexivity. Qed.

Example slice_ex : PyStr.slice 7 3 "```json{}```" = "{}".
Proof. reflexivity. Qed.

Example slice_short_ex : PyStr.slice 7 3 "```json" = "".
Proof. reflexivity. Qed.

Example suffix_ex : PyStr.suffix "/home/u/pics/photo.png" = ".png".
Proof. reflexivity. Qed.

Example suffix_hidden_ex : PyStr.suffix "/home/u/.bashrc" = "".
Proof. reflexivity. Qed.

Example suffix_two_ex : PyStr.suffix "a.b/c.tar.gz" = ".gz".
Proof. reflexivity. Qed.

Example tags_ex : Publish.tags_of_entry " a, b ,, c " = ["a"; "b"; "c"].
Proof. reflexivity. Qed.

Example unfence_lines_ex :
  Ai.unfence ("```json" +:+ String "010"%char "{}" +:+ String "010"%char "```")
  = String "010"%char "{}" +:+ String "010"%char "".
Proof. reflexivity. Qed.

Example parse_fenced_ex :
  Ai.parse_response Spec.loads_empty_object
    ("```json" +:+ String "010"%char "{}" +:+ String "010"%char "```")
  = Ok (PyDict []).
Proof. reflexivity. Qed.

Example missing_two_ex :
  Env.load_environment
    (Some (delete "R2_ACCOUNT_ID" (delete "R2_BUCKET_NAME" Samples.dotenv_six))) ∅
  = Env.Exit "Missing environment variables: R2_ACCOUNT_ID, R2_BUCKET_NAME".
Proof. vm_compute. reflexivity. Qed.

Example filled_ready_ex :
  Form.publish_btn Samples.filled = Form.NORMAL
  /\ Form.generate_btn Samples.filled = Form.DISABLED.
Proof. vm_compute. split; reflexivity. Qed.

(** Typing a title and a category runs no handler: the publish button
    keeps the state the last evaluation gave it. *)
Example typing_leaves_publish_btn_ex :
  Form.publish_btn
    (Form.set_category_var "nature"
       (Form.set_title_entry "Mountain"
          (Form.select_image "/home/u/photo.png" None (Form.init "" Form.ServicesOk))))
  = Form.DISABLED.
Proof. vm_compute. reflexivity. Qed.

(** * Further properties of the environment loader *)

Module EnvMore.
Import Env.

(** The value in force for a variable: the one of the process, else the
    one of the file. *)
Lemma getenv_load_dotenv file environ var :
  getenv (load_dotenv file environ) var
  = match environ !! var with Some v => Some v | None => file !! var end.
Proof.
  unfold getenv, load_dotenv. rewrite lookup_union.
  destruct (environ !! var), (file !! var); reflexivity.
Qed.



End EnvMore.

(** X1. With a configuration file, start-up is refused exactly when some
    validated variable has no value or an empty one, the value of the
    process environment, even an empty one, taking precedence over the one
    of the file; the message then enumerates exactly those variables, in
    the order of the program's list. *)
Theorem startup_refused_iff_value_missing :
  forall (file environ : gmap string string) (message : string),
    let in_force var :=
      match environ !! var with Some v => Some v | None => file !! var end in
    let missing :=
      List.filter
        (fun var => match in_force var with Some v => negb (PyStr.truthy v) | None => true end)
        Env.required_vars in
    Env.load_environment (Some file) environ = Env.Exit message
    <-> missing <> []
        /\ message = "Missing environment variables: " +:+ PyStr.join ", " missing.
Proof.
  intros file environ message in_force missing.
  rewrite EnvFacts.load_environment_exit.
  assert (Hm : Env.missing_vars (Env.load_dotenv file environ) = missing).
  { unfold Env.missing_vars, missing. apply filter_ext. intros var.
    rewrite EnvMore.getenv_load_dotenv. unfold in_force, Env.truthy_opt.
    destruct (environ !! var) as [v|]; [reflexivity|].
    destruct (file !! var); reflexivity. }
  rewrite Hm. reflexivity.
Qed.


(** * Further properties of the form and of publishing *)

Module FormMore.
Import PyStr Form Publish Spec Notions.

(** What the two readiness handlers leave alone besides the fields. *)
Lemma check_ready_state_kept f :
  supabase_client (check_ready_state f) = supabase_client f
  /\ r2_client (check_ready_state f) = r2_client f
  /\ progress_bar (check_ready_state f) = progress_bar f
  /\ preview_image (check_ready_state f) = preview_image f.
Proof.
  unfold check_ready_state.
  destruct (truthy (strip (gemini_key_entry f)) && path_truthy (selected_image_path f));
    simpl;
    destruct (path_truthy (selected_image_path f)
              && truthy (strip (title_entry f)) && truthy (strip (category_var f)));
    simpl; repeat split; reflexivity.
Qed.

Lemma check_ready_state_path f :
  selected_image_path (check_ready_state f) = selected_image_path f.
Proof.
  destruct (ReadyFacts.check_ready_state_fields f) as (He & _).
  unfold entered in He. injection He as Hp _ _ _ _ _ _. exact Hp.
Qed.

Lemma on_api_key_change_kept f :
  supabase_client (on_api_key_change f) = supabase_client f
  /\ r2_client (on_api_key_change f) = r2_client f
  /\ progress_bar (on_api_key_change f) = progress_bar f
  /\ selected_image_path (on_api_key_change f) = selected_image_path f.
Proof.
  unfold on_api_key_change.
  destruct (truthy (strip (gemini_key_entry f)) && path_truthy (selected_image_path f));
    repeat split; reflexivity.
Qed.

Lemma clear_all_kept f :
  supabase_client (clear_all f) = supabase_client f
  /\ r2_client (clear_all f) = r2_client f
  /\ progress_bar (clear_all f) = progress_bar f.
Proof.
  unfold clear_all.
  match goal with |- context [check_ready_state ?x] =>
    destruct (check_ready_state_kept x) as (-> & -> & -> & _) end.
  repeat split; reflexivity.
Qed.

Lemma show_preview_kept opened f :
  supabase_client (show_preview opened f) = supabase_client f
  /\ r2_client (show_preview opened f) = r2_client f
  /\ progress_bar (show_preview opened f) = progress_bar f
  /\ selected_image_path (show_preview opened f) = selected_image_path f.
Proof.
  unfold show_preview. destruct (selected_image_path f) as [p|] eqn:Hp;
    [|repeat split; reflexivity || assumption].
  destruct (negb (truthy p)); [repeat split; reflexivity || assumption|].
  destruct opened; repeat split; reflexivity || assumption.
Qed.

Lemma select_image_kept file_path opened f :
  supabase_client (select_image file_path opened f) = supabase_client f
  /\ r2_client (select_image file_path opened f) = r2_client f
  /\ progress_bar (select_image file_path opened f) = progress_bar f.
Proof.
  unfold select_image. destruct (truthy file_path); [|repeat split; reflexivity].
  match goal with |- context [check_ready_state ?x] =>
    destruct (check_ready_state_kept x) as (-> & -> & -> & _) end.
  match goal with |- context [show_preview opened ?x] =>
    destruct (show_preview_kept opened x) as (-> & -> & -> & _) end.
  repeat split; reflexivity.
Qed.

(** The path after [select_image]: the chosen file, or the former path
    when the dialog was cancelled. *)
Lemma select_image_path file_path opened f :
  selected_image_path (select_image file_path opened f)
  = if truthy file_path then Some file_path else selected_image_path f.
Proof.
  unfold select_image. destruct (truthy file_path); [|reflexivity].
  rewrite check_ready_state_path.
  match goal with |- context [show_preview opened ?x] =>
    destruct (show_preview_kept opened x) as (_ & _ & _ & ->) end.
  reflexivity.
Qed.

(** [validate_form] decides as [check_ready_state] does. *)
Lemma validate_form_cases f :
  (publish_ready f = true /\ validate_form f = (true, f))
  \/ (publish_ready f = false
      /\ exists message, validate_form f = (false, showerror "Error" message f)).
Proof.
  unfold validate_form, publish_ready.
  destruct (path_truthy (selected_image_path f)); simpl; [|right; eauto].
  destruct (truthy (strip (title_entry f))); simpl; [|right; eauto].
  destruct (truthy (strip (category_var f))); simpl; [left|right]; eauto.
Qed.

(** The remote calls of one run of the thread. *)
Lemma thread_calls_cases environ f o :
  fst (_publish_wallpaper_thread environ f o) = []
  \/ exists path,
      selected_image_path f = Some path
      /\ r2_client f = true
      /\ (fst (_publish_wallpaper_thread environ f o) = [upload_of environ path o]
          \/ (supabase_client f = true
              /\ fst (_publish_wallpaper_thread environ f o)
                 = [upload_of environ path o;
                    TableInsert "wallpapers" (row_of environ f path o)])).
Proof.
  unfold _publish_wallpaper_thread. cbv zeta.
  destruct (selected_image_path f) as [path|]; [|left; reflexivity].
  destruct (open_file o); [left; reflexivity|].
  destruct (r2_client f); simpl negb; cbv iota; [|left; reflexivity].
  right. exists path. split; [reflexivity|]. split; [reflexivity|].
  destruct (upload_fileobj o); [left; reflexivity|].
  destruct (supabase_client f); simpl negb; cbv iota; [|left; reflexivity].
  right. split; [reflexivity|].
  destruct (insert_execute o) as [data|e]; [destruct (data_truthy data)|]; reflexivity.
Qed.

Lemma snoc_two {A : Type} (xs : list A) (a b : A) : xs ++ [a; b] = (xs ++ [a]) ++ [b].
Proof. rewrite <- app_assoc. reflexivity. Qed.

(** What the thread schedules always ends with the stop of the progress
    bar. *)
Lemma thread_ends_with_stop environ f o :
  exists scheduled,
    snd (_publish_wallpaper_thread environ f o) = scheduled ++ [ProgressStop].
Proof.
  unfold _publish_wallpaper_thread. cbv beta zeta.
  destruct (selected_image_path f) as [path|];
    [|cbn [snd]; rewrite snoc_two; eexists; reflexivity].
  destruct (open_file o); [cbn [snd]; rewrite snoc_two; eexists; reflexivity|].
  destruct (r2_client f); simpl negb; cbv iota;
    [|cbn [snd]; rewrite snoc_two; eexists; reflexivity].
  destruct (upload_fileobj o); [cbn [snd]; rewrite snoc_two; eexists; reflexivity|].
  destruct (supabase_client f); simpl negb; cbv iota;
    [|cbn [snd]; rewrite snoc_two; eexists; reflexivity].
  destruct (insert_execute o) as [data|e]; [destruct (data_truthy data)|];
    cbn [snd]; rewrite snoc_two; eexists; reflexivity.
Qed.

Section WithLibraries.

Variable tcl_string : pyval -> result string.

Lemma publish_wallpaper_cases environ o f :
  (publish_ready f = true
   /\ Publish.publish_wallpaper tcl_string environ o f
      = (fst (_publish_wallpaper_thread environ f o),
         Ai.run_callbacks tcl_string (e_bound o)
           (snd (_publish_wallpaper_thread environ f o)) f))
  \/ (publish_ready f = false
      /\ exists message,
          Publish.publish_wallpaper tcl_string environ o f
          = ([], showerror "Error" message f)).
Proof.
  unfold Publish.publish_wallpaper.
  destruct (validate_form_cases f) as [(Hr & ->) | (Hr & message & ->)].
  - left. split; [exact Hr|].
    destruct (_publish_wallpaper_thread environ f o); reflexivity.
  - right. split; [exact Hr|]. exists message. reflexivity.
Qed.

End WithLibraries.

End FormMore.

(** X3. [validate_form] accepts the form exactly when [check_ready_state]
    would enable the publish button; an accepted form is left as it is,
    and a refused one only gets one error dialog. *)
Theorem validate_form_agrees_with_publish_button :
  forall f : Form.form,
    (fst (Form.validate_form f) = true
     <-> Form.publish_btn (Form.check_ready_state f) = Form.NORMAL)
    /\ (Form.validate_form f = (true, f)
        \/ exists message,
            Form.validate_form f = (false, Form.showerror "Error" message f)).
Proof.
  intros f. rewrite ReadyFacts.check_ready_state_publish, ReadyFacts.btn_of_normal.
  destruct (FormMore.validate_form_cases f) as [(Hr & Hv) | (Hr & message & Hv)];
    rewrite Hv, Hr; simpl.
  - split; [tauto | left; reflexivity].
  - split; [split; discriminate | right; exists message; reflexivity].
Qed.


(** X5. One publish makes at most one upload and at most one insert, the
    insert never without the upload before it, and always into the table
    wallpapers. *)
Theorem publish_calls_upload_then_insert :
  forall (tcl_string : pyval -> result string) (environ : gmap string string)
         (o : Publish.outcomes) (f : Form.form),
    Notions.upload_then_insert (fst (Publish.publish_wallpaper tcl_string environ o f))
    /\ Notions.upload_then_insert (fst (Publish._publish_wallpaper_thread environ f o)).
Proof.
  intros tcl_string environ o f.
  assert (Ht : Notions.upload_then_insert
                 (fst (Publish._publish_wallpaper_thread environ f o))).
  { unfold Notions.upload_then_insert.
    destruct (FormMore.thread_calls_cases environ f o)
      as [-> | (path & _ & _ & [-> | (_ & ->)])].
    - left. reflexivity.
    - right. left. unfold Spec.upload_of. eauto.
    - right. right. unfold Spec.upload_of. eauto 10. }
  split; [|exact Ht].
  destruct (FormMore.publish_wallpaper_cases tcl_string environ o f)
    as [(_ & ->) | (_ & message & ->)]; cbn [fst]; [exact Ht | left; reflexivity].
Qed.

(** * Further invariants of a session *)

Module SessionMore.
Import PyStr Form Publish Spec Notions FormMore.

Lemma path_kept_sound g f : path_kept g f -> path_sound f -> path_sound g.
Proof.
  unfold path_kept, path_sound. intros [-> | ->]; [exact (fun H => H) | discriminate].
Qed.

Lemma path_kept_trans h g f : path_kept h g -> path_kept g f -> path_kept h f.
Proof.
  unfold path_kept. intros [-> | ->]; [exact (fun H => H) | right; reflexivity].
Qed.

Lemma run_callbacks_app tcl_string e_bound cs ds f :
  Ai.run_callbacks tcl_string e_bound (cs ++ ds) f
  = Ai.run_callbacks tcl_string e_bound ds (Ai.run_callbacks tcl_string e_bound cs f).
Proof. unfold Ai.run_callbacks. apply fold_left_app. Qed.

Section WithLibraries.

Variable json_loads : string -> result pyval.
Variable tcl_string : pyval -> result string.
Variable environ : gmap string string.

Lemma update_metadata_ui_kept metadata f :
  supabase_client (Ai._update_metadata_ui tcl_string metadata f) = supabase_client f
  /\ r2_client (Ai._update_metadata_ui tcl_string metadata f) = r2_client f
  /\ progress_bar (Ai._update_metadata_ui tcl_string metadata f) = progress_bar f
  /\ selected_image_path (Ai._update_metadata_ui tcl_string metadata f)
     = selected_image_path f.
Proof.
  unfold Ai._update_metadata_ui. cbv zeta.
  destruct metadata as [| | | | |l|d]; try (repeat split; reflexivity).
  destruct (Ai.widget_text tcl_string (dict_get d "title" (PyStr "")));
    [|repeat split; reflexivity].
  destruct (Ai.widget_text tcl_string (dict_get d "category" (PyStr "")));
    [|repeat split; reflexivity].
  destruct (Ai.join_tags (dict_get d "tags" (PyList [])));
    [|repeat split; reflexivity].
  destruct (Ai.widget_text tcl_string (dict_get d "description" (PyStr "")));
    [|repeat split; reflexivity].
  match goal with |- context [check_ready_state ?x] => set (filled := x) end.
  destruct (check_ready_state_kept filled) as (-> & -> & -> & _).
  rewrite check_ready_state_path. subst filled. repeat split; reflexivity.
Qed.

Lemma clear_all_path f : selected_image_path (clear_all f) = None.
Proof.
  pose proof (ClearFacts.clear_all_entered f) as He.
  unfold entered, idle_fields in He. injection He as Hp _ _ _ _ _ _. exact Hp.
Qed.

Lemma run_callback_kept e_bound c f :
  supabase_client (Ai.run_callback tcl_string e_bound c f) = supabase_client f
  /\ r2_client (Ai.run_callback tcl_string e_bound c f) = r2_client f
  /\ path_kept (Ai.run_callback tcl_string e_bound c f) f.
Proof.
  unfold path_kept. destruct c; simpl Ai.run_callback.
  - repeat split; left; reflexivity.
  - repeat split; left; reflexivity.
  - repeat split; left; reflexivity.
  - destruct (update_metadata_ui_kept metadata f) as (-> & -> & _ & ->).
    repeat split; left; reflexivity.
  - destruct e_bound; repeat split; left; reflexivity.
  - unfold _publish_success.
    match goal with |- context [clear_all ?x] =>
      destruct (clear_all_kept x) as (-> & -> & _); rewrite (clear_all_path x) end.
    repeat split; right; reflexivity.
  - destruct e_bound; repeat split; left; reflexivity.
Qed.

Lemma run_callbacks_kept e_bound cs f :
  supabase_client (Ai.run_callbacks tcl_string e_bound cs f) = supabase_client f
  /\ r2_client (Ai.run_callbacks tcl_string e_bound cs f) = r2_client f
  /\ path_kept (Ai.run_callbacks tcl_string e_bound cs f) f.
Proof.
  revert f. induction cs as [|c cs IH]; intros f.
  - repeat split. left. reflexivity.
  - change (Ai.run_callbacks tcl_string e_bound (c :: cs) f)
      with (Ai.run_callbacks tcl_string e_bound cs (Ai.run_callback tcl_string e_bound c f)).
    destruct (IH (Ai.run_callback tcl_string e_bound c f)) as (-> & -> & Hk).
    destruct (run_callback_kept e_bound c f) as (-> & -> & Hk').
    repeat split. exact (path_kept_trans _ _ _ Hk Hk').
Qed.

(** Running callbacks that end with the stop of the progress bar. *)
Lemma run_callbacks_stop e_bound cs f :
  progress_bar (Ai.run_callbacks tcl_string e_bound (cs ++ [ProgressStop]) f) = false.
Proof. rewrite run_callbacks_app. reflexivity. Qed.

Lemma generate_thread_ends_with_stop reply :
  exists scheduled,
    Ai._generate_metadata_thread json_loads reply = scheduled ++ [ProgressStop].
Proof.
  unfold Ai._generate_metadata_thread. eexists. rewrite app_assoc. reflexivity.
Qed.

(** One event: the clients stay, the path stays sound, the progress bar
    is at rest again. *)
Lemma step_kept e f :
  let g := Session.step json_loads tcl_string environ e f in
  supabase_client g = supabase_client f
  /\ r2_client g = r2_client f
  /\ (path_sound f -> path_sound g)
  /\ (progress_bar f = false -> progress_bar g = false).
Proof.
  cbv zeta.
  destruct e as [file_path opened|content|content|content|content|content|reply eb|o|];
    simpl Session.step.
  - destruct (select_image_kept file_path opened f) as (-> & -> & ->).
    repeat split; [|exact (fun H => H)].
    unfold path_sound. rewrite select_image_path.
    destruct file_path; simpl; [exact (fun H => H) | discriminate].
  - match goal with |- context [on_api_key_change ?x] =>
      destruct (on_api_key_change_kept x) as (-> & -> & -> & Hp) end.
    unfold path_sound. rewrite Hp. repeat split; exact (fun H => H).
  - repeat split; exact (fun H => H).
  - repeat split; exact (fun H => H).
  - repeat split; exact (fun H => H).
  - repeat split; exact (fun H => H).
  - unfold Publish.generate_metadata.
    destruct (negb (path_truthy (selected_image_path f)));
      [repeat split; exact (fun H => H)|].
    destruct (negb (truthy (strip (gemini_key_entry f))));
      [repeat split; exact (fun H => H)|].
    destruct (run_callbacks_kept eb (Ai._generate_metadata_thread json_loads reply) f)
      as (-> & -> & Hk).
    repeat split; [exact (path_kept_sound _ _ Hk)|].
    intros _. destruct (generate_thread_ends_with_stop reply) as (scheduled & ->).
    apply run_callbacks_stop.
  - destruct (publish_wallpaper_cases tcl_string environ o f)
      as [(_ & ->) | (_ & message & ->)]; cbn [snd].
    + destruct (run_callbacks_kept (Publish.e_bound o)
                  (snd (_publish_wallpaper_thread environ f o)) f) as (-> & -> & Hk).
      repeat split; [exact (path_kept_sound _ _ Hk)|].
      intros _. destruct (thread_ends_with_stop environ f o) as (scheduled & ->).
      apply run_callbacks_stop.
    + repeat split; exact (fun H => H).
  - destruct (clear_all_kept f) as (-> & -> & ->).
    repeat split; [|exact (fun H => H)].
    intros _. unfold path_sound. rewrite clear_all_path. discriminate.
Qed.

Lemma run_kept es f :
  let g := Session.run json_loads tcl_string environ es f in
  supabase_client g = supabase_client f
  /\ r2_client g = r2_client f
  /\ (path_sound f -> path_sound g)
  /\ (progress_bar f = false -> progress_bar g = false).
Proof.
  cbv zeta. unfold Session.run. revert f.
  induction es as [|e es IH]; intros f; simpl.
  - repeat split; exact (fun H => H).
  - destruct (IH (Session.step json_loads tcl_string environ e f)) as (-> & -> & Hp & Hb).
    destruct (step_kept e f) as (-> & -> & Hp' & Hb').
    repeat split; [exact (fun H => Hp (Hp' H)) | exact (fun H => Hb (Hb' H))].
Qed.

End WithLibraries.

(** The form at start-up. *)
Lemma init_kept gemini_api_key outcome :
  let f := init gemini_api_key outcome in
  selected_image_path f = None
  /\ progress_bar f = false
  /\ supabase_client f
     = match outcome with SupabaseRaises _ => false | _ => true end
  /\ r2_client f = match outcome with ServicesOk => true | _ => false end.
Proof.
  cbv zeta. unfold init. rewrite check_ready_state_path.
  match goal with |- context [check_ready_state ?x] =>
    destruct (check_ready_state_kept x) as (-> & -> & -> & _) end.
  destruct outcome; repeat split; reflexivity.
Qed.

End SessionMore.


(** X7. In every state a session reaches, the path attribute is either
    unset or a non-empty path: a cancelled file dialog never selects the
    empty path, so an image is selected exactly when the attribute is
    set. *)
Theorem selected_path_never_empty :
  forall (json_loads : string -> result pyval) (tcl_string : pyval -> result string)
         (environ : gmap string string) (gemini_api_key : string)
         (outcome : Form.services) (events : list Session.event),
    let g :=
      Session.run json_loads tcl_string environ events (Form.init gemini_api_key outcome) in
    Form.selected_image_path g <> Some ""
    /\ (Spec.image_selected g <-> Form.selected_image_path g <> None).
Proof.
  intros json_loads tcl_string environ key outcome events g.
  assert (Hs : Notions.path_sound g).
  { destruct (SessionMore.run_kept json_loads tcl_string environ events
                (Form.init key outcome)) as (_ & _ & Hp & _).
    apply Hp. unfold Notions.path_sound.
    destruct (SessionMore.init_kept key outcome) as (-> & _). discriminate. }
  split; [exact Hs|].
  unfold Spec.image_selected, Notions.path_sound in *.
  destruct (Form.selected_image_path g) as [p|]; split.
  - discriminate.
  - intros _. exists p. split; [reflexivity|]. intros ->. apply Hs. reflexivity.
  - intros (p & Hp & _). discriminate Hp.
  - intros H. contradiction.
Qed.

(** X8. The two clients are created at start-up and never again: along a
    session they stay what [initialize_services] made them, the storage
    client existing only if the database client does. When the
    initialisation failed, no publish of the session calls a remote
    service. *)
Theorem clients_fixed_at_startup :
  forall (json_loads : string -> result pyval) (tcl_string : pyval -> result string)
         (environ : gmap string string) (gemini_api_key : string)
         (outcome : Form.services) (events : list Session.event),
    let g :=
      Session.run json_loads tcl_string environ events (Form.init gemini_api_key outcome) in
    Form.supabase_client g
    = match outcome with Form.SupabaseRaises _ => false | _ => true end
    /\ Form.r2_client g = match outcome with Form.ServicesOk => true | _ => false end
    /\ Notions.clients_ordered g
    /\ match outcome with
       | Form.ServicesOk => True
       | _ => forall o, fst (Publish.publish_wallpaper tcl_string environ o g) = []
       end.
Proof.
  intros json_loads tcl_string environ key outcome events g.
  destruct (SessionMore.run_kept json_loads tcl_string environ events
              (Form.init key outcome)) as (Hs & Hr & _).
  destruct (SessionMore.init_kept key outcome) as (_ & _ & Hs0 & Hr0).
  fold g in Hs, Hr. rewrite Hs0 in Hs. rewrite Hr0 in Hr.
  split; [exact Hs|]. split; [exact Hr|]. split.
  { unfold Notions.clients_ordered. rewrite Hs, Hr. destruct outcome; congruence. }
  assert (Hnone : Form.r2_client g = false ->
                  forall o, fst (Publish.publish_wallpaper tcl_string environ o g) = []).
  { intros Hf o.
    destruct (FormMore.publish_wallpaper_cases tcl_string environ o g)
      as [(_ & ->) | (_ & message & ->)]; cbn [fst]; [|reflexivity].
    destruct (FormMore.thread_calls_cases environ g o) as [H | (path & _ & Ht & _)];
      [exact H | congruence]. }
  destruct outcome; [exact I | apply Hnone, Hr | apply Hnone, Hr].
Qed.

(** * Further properties of the generation and of the preview *)

Module GenerateMore.
Import PyStr Form Spec Notions FormMore.



End GenerateMore.



(** X10. [_update_metadata_ui] does not undo what it has written when it
    fails half-way: if the title and the category of the result are strings
    but its tags cannot be joined, the title and the category are already
    overwritten and the tags entry is emptied, while the description, the
    remembered metadata and both buttons stay as they were; the status
    names the error. *)
Theorem unjoinable_tags_leave_partial_update :
  forall (tcl_string : pyval -> result string) (d : list (string * pyval))
         (title category e : string) (f : Form.form),
    dict_get d "title" (PyStr "") = PyStr title ->
    dict_get d "category" (PyStr "") = PyStr category ->
    Ai.join_tags (dict_get d "tags" (PyList [])) = Raise e ->
    let g := Ai._update_metadata_ui tcl_string (PyDict d) f in
    Form.title_entry g = title
    /\ Form.category_var g = category
    /\ Form.tags_entry g = ""
    /\ Form.description_text g = Form.description_text f
    /\ Form.generated_metadata g = Form.generated_metadata f
    /\ Form.status_label g = ("Error updating metadata: " +:+ e, "red")
    /\ Form.publish_btn g = Form.publish_btn f
    /\ Form.generate_btn g = Form.generate_btn f.
Proof.
  intros tcl_string d title category e f Gt Gc Hj g. subst g.
  unfold Ai._update_metadata_ui. rewrite Gt, Gc, Hj. cbv zeta. cbn [Ai.widget_text].
  split.
  { simpl. unfold Form.insert_at_start, Form.delete_all.
    apply StrFacts.append_empty_r. }
  do 6 (split; [reflexivity|]). reflexivity.
Qed.

Lemma unjoinable_tags_witness :
  Form.title_entry
    (Ai._update_metadata_ui Samples.no_text
       (PyDict [("title", PyStr "T"); ("category", PyStr "nature");
                ("tags", PyList [PyStr "a"; PyInt 7])])
       Samples.filled)
  = "T".
Proof.
  refine (proj1
    (unjoinable_tags_leave_partial_update Samples.no_text
       [("title", PyStr "T"); ("category", PyStr "nature");
        ("tags", PyList [PyStr "a"; PyInt 7])]
       "T" "nature" "sequence item 1: expected str instance, int found"
       Samples.filled _ _ _)).
  - reflexivity.
  - reflexivity.
  - vm_compute. reflexivity.
Defined.

(** X11. A reply that decodes to something other than an object (a list,
    a string, a number, null) empties the title entry and changes nothing
    else of what was entered; the status tells that the value has no
    [get]. *)
Theorem non_object_reply_clears_title_only :
  forall (tcl_string : pyval -> result string) (metadata : pyval) (f : Form.form),
    (forall d, metadata <> PyDict d) ->
    let g := Ai._update_metadata_ui tcl_string metadata f in
    Form.title_entry g = ""
    /\ Form.category_var g = Form.category_var f
    /\ Form.tags_entry g = Form.tags_entry f
    /\ Form.description_text g = Form.description_text f
    /\ Form.selected_image_path g = Form.selected_image_path f
    /\ Form.generated_metadata g = Form.generated_metadata f
    /\ Form.publish_btn g = Form.publish_btn f
    /\ Form.status_label g
       = ("Error updating metadata: "
          +:+ ("'" +:+ type_name metadata +:+ "' object has no attribute 'get'"), "red").
Proof.
  intros tcl_string metadata f Hnd g. subst g. unfold Ai._update_metadata_ui.
  destruct metadata as [| | | | |l|d];
    try (cbv zeta; do 7 (split; [reflexivity|]); reflexivity).
  exfalso. exact (Hnd d eq_refl).
Qed.

Lemma non_object_reply_witness :
  Form.title_entry (Ai._update_metadata_ui Samples.no_text (PyList []) Samples.filled) = "".
Proof.
  refine (proj1
    (non_object_reply_clears_title_only Samples.no_text (PyList []) Samples.filled _)).
  intros d. discriminate.
Defined.

(** X12. A chosen file whose preview cannot be built is selected all the
    same: the path and its base name are recorded, the preview label shows
    the error instead of an image, the image kept from an earlier preview
    is not dropped, a dialog reports the error, and the publish button is
    enabled as for any selected file, by the title and the category
    alone. *)
Theorem undecodable_file_is_still_selected :
  forall (c : ascii) (rest e : string) (f : Form.form),
    let path := String c rest in
    let g := Form.select_image path (Some e) f in
    Form.selected_image_path g = Some path
    /\ Form.image_path_label g = (PyStr.basename path, "black")
    /\ Form.preview_label g = (None, "Preview error: " +:+ e)
    /\ Form.preview_image g = Form.preview_image f
    /\ Form.dialogs g
       = Form.dialogs f
         ++ [Form.ShowError "Preview Error" ("Could not preview image: " +:+ e)]
    /\ (Form.publish_btn g = Form.NORMAL
        <-> PyStr.strip (Form.title_entry f) <> ""
            /\ PyStr.strip (Form.category_var f) <> "").
Proof.
  intros c rest e f path g. subst g. unfold Form.select_image.
  change (PyStr.truthy path) with true. cbv iota.
  match goal with |- context [Form.check_ready_state ?x] => set (shown := x) end.
  destruct (ReadyFacts.check_ready_state_fields shown) as (He & _ & _ & Hl & _ & Hd).
  destruct (FormMore.check_ready_state_kept shown) as (_ & _ & _ & Hi).
  unfold Spec.entered in He. injection He as Hp _ Hpl _ _ _ _.
  rewrite Hp, Hl, Hpl, Hi, Hd, ReadyFacts.check_ready_state_publish,
    ReadyFacts.btn_of_normal.
  assert (Hshown : shown
                   = Form.showerror "Preview Error" ("Could not preview image: " +:+ e)
                       (Form.set_preview_label (None, "Preview error: " +:+ e)
                          (Form.set_image_path_label (PyStr.basename path, "black")
                             (Form.set_selected_image_path (Some path) f)))).
  { subst shown. unfold Form.show_preview. reflexivity. }
  rewrite Hshown.
  do 5 (split; [reflexivity|]).
  unfold Spec.publish_ready. cbn [Form.selected_image_path Form.showerror
    Form.set_dialogs Form.set_preview_label Form.set_image_path_label
    Form.set_selected_image_path Form.title_entry Form.category_var Form.path_truthy].
  change (PyStr.truthy path) with true.
  rewrite !andb_true_iff, !StrFacts.truthy_true. tauto.
Qed.

(** * Further properties of the fence removal *)

Module FenceMore.
Import PyStr Spec.

(** A text that starts with a backquote and does not end with whitespace
    is kept whole by [strip]. *)
Lemma strip_fence_open s :
  rstrip_by isspace s = s ->
  strip ("```json" +:+ s) = "```json" +:+ s.
Proof.
  intros Hs. unfold strip, strip_by.
  change (lstrip_by isspace ("```json" +:+ s)) with ("```json" +:+ s).
  destruct s as [|c s].
  - reflexivity.
  - rewrite StrFacts.rstrip_by_app_keep; rewrite Hs; [reflexivity | discriminate].
Qed.

End FenceMore.

(** X13. A reply that opens with a plain fence and not with the json
    fence loses exactly its first three and last three characters (after
    the outer whitespace): what stands between the fences is handed to the
    decoder as it is, a language tag other than json included. *)
Theorem plain_fence_keeps_other_tags :
  forall before s after : string,
    PyStr.all_chars PyStr.isspace before = true ->
    PyStr.all_chars PyStr.isspace after = true ->
    PyStr.startswith "```json" ("```" +:+ s +:+ "```") = false ->
    Ai.unfence (before +:+ ("```" +:+ s +:+ "```") +:+ after) = s.
Proof.
  intros before s after Hb Ha Hj. unfold Ai.unfence.
  pose proof (FenceFacts.strip_fenced before "" s after Hb Ha) as Hs.
  rewrite StrFacts.append_empty_l in Hs. rewrite Hs, Hj.
  unfold PyStr.startswith. rewrite FenceFacts.prefix_append.
  apply (FenceFacts.slice_between "```" "```").
Qed.

Lemma plain_fence_keeps_other_tags_witness :
  Ai.unfence (" " +:+ ("```" +:+ "javascript {}" +:+ "```") +:+ " ") = "javascript {}".
Proof.
  exact (plain_fence_keeps_other_tags " " "javascript {}" " " eq_refl eq_refl eq_refl).
Defined.

(** X14. A reply that opens with the json fence and has no closing fence
    still loses its last three characters: for a text [s] that does not end
    with whitespace, what is decoded after the opening fence is [s] without
    its last three characters (nothing at all when [s] has at most
    three). *)
Theorem unclosed_json_fence_drops_three :
  forall s : string,
    PyStr.rstrip_by PyStr.isspace s = s ->
    Ai.unfence ("```json" +:+ s) = String.substring 0 (String.length s - 3) s.
Proof.
  intros s Hs. unfold Ai.unfence. rewrite (FenceMore.strip_fence_open s Hs).
  unfold PyStr.startswith. rewrite FenceFacts.prefix_append.
  unfold PyStr.slice. rewrite StrFacts.length_append.
  replace (String.length "```json" + String.length s - 3 - 7)
    with (String.length s - 3) by (simpl; lia).
  apply (FenceFacts.substring_skip "```json").
Qed.

Lemma unclosed_json_fence_witness :
  Ai.unfence ("```json" +:+ "[1, 2]") = String.substring 0 (String.length "[1, 2]" - 3) "[1, 2]".
Proof.
  exact (unclosed_json_fence_drops_three "[1, 2]" eq_refl).
Defined.

(** * The tags, from the result to the row *)

Module TagsMore.
Import PyStr Publish Spec Notions.

Lemma free_of_app ch s t : free_of ch (s +:+ t) = free_of ch s && free_of ch t.
Proof.
  unfold free_of. induction s as [|c s IH]; [reflexivity|].
  rewrite StrFacts.append_cons. simpl. rewrite IH, andb_assoc. reflexivity.
Qed.

(** Cutting a text at the first separator. *)
Lemma split_at_first sep t r :
  free_of sep t = true -> split sep (t +:+ String sep r) = t :: split sep r.
Proof.
  unfold free_of. induction t as [|c t IH]; intros H.
  - rewrite StrFacts.append_empty_l. simpl. rewrite Ascii.eqb_refl. reflexivity.
  - simpl in H. apply andb_true_iff in H. destruct H as (Hc & Ht).
    rewrite StrFacts.append_cons. simpl.
    apply negb_true_iff in Hc. rewrite Hc, (IH Ht). reflexivity.
Qed.

Lemma split_none sep t : free_of sep t = true -> split sep t = [t].
Proof.
  unfold free_of. induction t as [|c t IH]; intros H; [reflexivity|].
  simpl in H. apply andb_true_iff in H. destruct H as (Hc & Ht).
  simpl. apply negb_true_iff in Hc. rewrite Hc, (IH Ht). reflexivity.
Qed.

Lemma strip_after_blank w t :
  all_chars isspace w = true -> strip (w +:+ t) = strip t.
Proof.
  intros Hw. unfold strip, strip_by. rewrite (StrFacts.lstrip_by_app_all isspace w t Hw).
  reflexivity.
Qed.

Lemma join_cons_cons sep t u ts :
  join sep (t :: u :: ts) = t +:+ sep +:+ join sep (u :: ts).
Proof. reflexivity. Qed.

(** The tags read back from a joined list, behind a blank that holds no
    comma. *)
Lemma tags_of_joined w ts :
  all_chars isspace w = true -> free_of "," w = true ->
  List.Forall plain_tag ts ->
  tags_of_entry (w +:+ join ", " ts) = ts.
Proof.
  intros Hw Hf Hts. revert w Hw Hf.
  induction Hts as [|t ts (Hne & Hst & Hfree) Hts IH]; intros w Hw Hf.
  - unfold tags_of_entry. simpl join. rewrite StrFacts.append_empty_r.
    rewrite (split_none "," w Hf). simpl.
    assert (Hb : strip w = "").
    { unfold strip, strip_by. rewrite (StrFacts.lstrip_by_all isspace w Hw). reflexivity. }
    rewrite Hb. reflexivity.
  - assert (Hkeep : strip (w +:+ t) = t) by (rewrite strip_after_blank; assumption).
    destruct ts as [|u ts].
    + unfold tags_of_entry. simpl join.
      rewrite (split_none "," (w +:+ t)) by (rewrite free_of_app, Hf, Hfree; reflexivity).
      simpl List.filter. rewrite Hkeep.
      destruct t as [|c t]; [contradiction|]. simpl truthy. cbv iota.
      simpl List.map. rewrite Hkeep. reflexivity.
    + rewrite join_cons_cons.
      replace (w +:+ t +:+ ", " +:+ join ", " (u :: ts))
        with ((w +:+ t) +:+ String "," (" " +:+ join ", " (u :: ts)))
        by (rewrite !StrFacts.append_assoc; reflexivity).
      unfold tags_of_entry.
      rewrite split_at_first by (rewrite free_of_app, Hf, Hfree; reflexivity).
      simpl List.filter. rewrite Hkeep.
      destruct t as [|c t]; [contradiction|]. simpl truthy. cbv iota.
      simpl List.map. rewrite Hkeep. f_equal.
      apply (IH " "); reflexivity.
Qed.

End TagsMore.

(** X15. The tags make the round trip through the form: a list of tags
    that are non-empty, without whitespace at their ends and without a
    comma, once joined into the tags entry by [_update_metadata_ui], is
    read back as the same list for the inserted row. *)
Theorem tags_round_trip_through_entry :
  forall ts : list string,
    List.Forall Notions.plain_tag ts ->
    Publish.tags_of_entry (PyStr.join ", " ts) = ts
    /\ forall (tcl_string : pyval -> result string) title description category f,
        Publish.tags_of_entry
          (Form.tags_entry
             (Ai._update_metadata_ui tcl_string
                (Spec.describe_result title description category (Some ts)) f))
        = ts.
Proof.
  intros ts Hts.
  assert (H : Publish.tags_of_entry (PyStr.join ", " ts) = ts).
  { rewrite <- (StrFacts.append_empty_l (PyStr.join ", " ts)).
    apply TagsMore.tags_of_joined; [reflexivity | reflexivity | exact Hts]. }
  split; [exact H|].
  intros tcl_string title description category f.
  destruct (MetadataFacts.describe_result_get title description category (Some ts))
    as (d & -> & Gt & Gd & Gc & Gg).
  destruct (MetadataFacts.update_metadata_ui_ok tcl_string d
              (Spec.or_empty title) (Spec.or_empty category) (Spec.or_empty description)
              (PyStr.join ", " ts) f Gt Gc Gd)
    as (_ & _ & Hg & _).
  { rewrite Gg. apply MetadataFacts.join_tags_strs. }
  cbv zeta in Hg. rewrite Hg. exact H.
Qed.

Lemma tags_round_trip_witness :
  Publish.tags_of_entry (PyStr.join ", " ["mountain"; "snow"; "blue hour"])
  = ["mountain"; "snow"; "blue hour"].
Proof.
  refine (proj1 (tags_round_trip_through_entry ["mountain"; "snow"; "blue hour"] _)).
  repeat constructor; discriminate.
Defined.

(** * The name of the stored object *)

Module KeyMore.
Import PyStr Publish Spec Notions.








End KeyMore.



(** * The setup script *)

Module SetupMore.
Import Setup.

Lemma contains_unfold needle s :
  contains needle s
  = String.prefix needle s
    || match s with EmptyString => false | String _ r => contains needle r end.
Proof. destruct s; reflexivity. Qed.

Lemma contains_here needle rest : contains needle (needle +:+ rest) = true.
Proof. rewrite contains_unfold, FenceFacts.prefix_append. reflexivity. Qed.

(** A text that holds [needle] anywhere contains it. *)
Lemma contains_app before needle after :
  contains needle (before +:+ needle +:+ after) = true.
Proof.
  induction before as [|c before IH].
  - rewrite StrFacts.append_empty_l. apply contains_here.
  - rewrite StrFacts.append_cons. simpl. rewrite IH. apply orb_true_r.
Qed.

(** The variables the check reports: those of the list that the test
    flags, in the order of the list. *)
Lemma check_environment_incomplete content :
  match check_environment (Some content) with
  | NoFile => False
  | Incomplete missing_vars =>
      missing_vars = List.filter (not_configured content) required_vars
      /\ missing_vars <> []
  | LooksGood _ => List.filter (not_configured content) required_vars = []
  end.
Proof.
  unfold check_environment.
  destruct (List.filter (not_configured content) required_vars);
    [reflexivity | split; [reflexivity | discriminate]].
Qed.

Lemma flagged_is_reported content var :
  In var required_vars -> not_configured content var = true ->
  exists missing_vars,
    check_environment (Some content) = Incomplete missing_vars /\ In var missing_vars.
Proof.
  intros Hin Hflag.
  assert (Hm : In var (List.filter (not_configured content) required_vars))
    by (apply filter_In; split; assumption).
  pose proof (check_environment_incomplete content) as H.
  destruct (check_environment (Some content)) as [|missing_vars|opt].
  - contradiction.
  - destruct H as (-> & _). eexists. split; [reflexivity | exact Hm].
  - rewrite H in Hm. contradiction.
Qed.

End SetupMore.

(** X17. The setup check looks for texts anywhere in the file, not for
    assignments line by line: as soon as the file holds, at any place, a
    required variable's assignment behind a comment sign, or one whose
    value starts with the placeholder your_, the check fails and names
    that variable, whatever else the file assigns to it. *)
Theorem setup_check_flags_comment_or_placeholder :
  forall (var before after : string),
    In var Setup.required_vars ->
    (exists missing_vars,
       Setup.check_environment (Some (before +:+ ("#" +:+ var +:+ "=") +:+ after))
       = Setup.Incomplete missing_vars
       /\ In var missing_vars)
    /\ (exists missing_vars,
          Setup.check_environment (Some (before +:+ (var +:+ "=your_") +:+ after))
          = Setup.Incomplete missing_vars
          /\ In var missing_vars).
Proof.
  intros var before after Hin. split; apply SetupMore.flagged_is_reported; try exact Hin.
  - unfold Setup.not_configured. rewrite (SetupMore.contains_app before _ after).
    apply orb_true_r.
  - unfold Setup.not_configured. rewrite (SetupMore.contains_app before _ after).
    rewrite orb_true_r. reflexivity.
Qed.

Lemma setup_check_witness :
  exists missing_vars,
    Setup.check_environment
      (Some ("R2_BUCKET_NAME=wallpapers " +:+ ("#" +:+ "R2_BUCKET_NAME" +:+ "=") +:+ "old"))
    = Setup.Incomplete missing_vars
    /\ In "R2_BUCKET_NAME" missing_vars.
Proof.
  refine (proj1
    (setup_check_flags_comment_or_placeholder "R2_BUCKET_NAME"
       "R2_BUCKET_NAME=wallpapers " "old" _)).
  vm_compute. tauto.
Defined.


(** * After a publish, after a generation *)

Module AfterMore.
Import PyStr Form Publish Spec Notions FormMore.

Lemma publish_ready_entered f g : entered g = entered f -> publish_ready g = publish_ready f.
Proof.
  unfold entered, publish_ready. intros H. injection H as -> _ _ -> -> _ _. reflexivity.
Qed.

(** The thread reads the path, the two clients, and the four fields. *)
Lemma thread_reads_fields environ f g o :
  entered g = entered f ->
  supabase_client g = supabase_client f ->
  r2_client g = r2_client f ->
  _publish_wallpaper_thread environ g o = _publish_wallpaper_thread environ f o.
Proof.
  unfold entered. intros H Hs Hr. injection H as Hp _ _ Ht Hc Hg Hd.
  unfold _publish_wallpaper_thread. rewrite Hp, Hs, Hr, Ht, Hc, Hg, Hd. reflexivity.
Qed.

(** What the thread schedules: the success, or one error. *)
Lemma thread_scheduled_cases environ f o :
  (exists url,
     snd (_publish_wallpaper_thread environ f o)
     = saving ++ [PublishSuccess url; ProgressStop])
  \/ (exists scheduled e,
        (scheduled = started \/ scheduled = saving)
        /\ snd (_publish_wallpaper_thread environ f o)
           = scheduled ++ [PublishError e; ProgressStop]).
Proof.
  unfold _publish_wallpaper_thread. cbv beta zeta.
  destruct (selected_image_path f) as [path|]; [|right; eauto].
  destruct (open_file o); [right; eauto|].
  destruct (r2_client f); simpl negb; cbv iota; [|right; eauto].
  destruct (upload_fileobj o); [right; eauto|].
  destruct (supabase_client f); simpl negb; cbv iota;
    [|right; eexists saving, _; eauto].
  destruct (insert_execute o) as [data|e]; [destruct (data_truthy data)|].
  - left. eauto.
  - right. eexists saving, _. eauto.
  - right. eexists saving, _. eauto.
Qed.

Lemma entered_path f : selected_image_path f = fst (fst (entered f)).
Proof. reflexivity. Qed.

Lemma publish_in_sync_check f :
  publish_btn (check_ready_state f) = btn_of (publish_ready (check_ready_state f)).
Proof.
  rewrite ReadyFacts.check_ready_state_publish.
  destruct (ReadyFacts.check_ready_state_fields f) as (He & _).
  rewrite (publish_ready_entered f (check_ready_state f) He). reflexivity.
Qed.

End AfterMore.

(** X19. Once a publish has succeeded the form is empty again, so that
    publishing again right away calls no remote service: whatever the
    services would answer, the second attempt stops at the validation with
    the request to select an image. *)
Theorem no_second_publish_after_success :
  forall (tcl_string : pyval -> result string) (environ : gmap string string)
         (o : Publish.outcomes) (f : Form.form) (url : string),
    Spec.publish_ready f = true ->
    In (PublishSuccess url) (snd (Publish._publish_wallpaper_thread environ f o)) ->
    let f' := snd (Publish.publish_wallpaper tcl_string environ o f) in
    forall o',
      Publish.publish_wallpaper tcl_string environ o' f'
      = ([], Form.showerror "Error" "Please select an image" f').
Proof.
  intros tcl_string environ o f url Hr Hin f' o'.
  assert (Hp : Form.selected_image_path f' = None).
  { subst f'.
    destruct (FormMore.publish_wallpaper_cases tcl_string environ o f)
      as [(_ & ->) | (Hf & _)]; [|congruence]. cbn [snd].
    destruct (AfterMore.thread_scheduled_cases environ f o)
      as [(url' & Hs) | (scheduled & e & Hc & Hs)]; rewrite Hs in *.
    - destruct (PublishFacts.run_success tcl_string (Publish.e_bound o) url' f) as (He & _).
      rewrite AfterMore.entered_path, He. reflexivity.
    - exfalso. destruct Hc as [-> | ->]; simpl in Hin;
        repeat (destruct Hin as [Hin|Hin]; [discriminate Hin|]); contradiction. }
  clearbody f'.
  unfold Publish.publish_wallpaper, Form.validate_form. rewrite Hp. reflexivity.
Qed.

Lemma no_second_publish_witness :
  Publish.publish_wallpaper Samples.no_text Samples.dotenv_seven Samples.all_fine
    (snd (Publish.publish_wallpaper Samples.no_text Samples.dotenv_seven
            Samples.all_fine Samples.filled))
  = ([], Form.showerror "Error" "Please select an image"
           (snd (Publish.publish_wallpaper Samples.no_text Samples.dotenv_seven
                   Samples.all_fine Samples.filled))).
Proof.
  refine (no_second_publish_after_success Samples.no_text Samples.dotenv_seven
            Samples.all_fine Samples.filled
            "https://cdn.example.org/123e4567-e89b-42d3-a456-426614174000.png"
            _ _ Samples.all_fine).
  - vm_compute. reflexivity.
  - vm_compute. right. right. right. left. reflexivity.
Defined.

(** X20. A publish that did not succeed keeps the form publishable as it
    was: what was entered is unchanged, the validation accepts it again,
    and a new attempt makes exactly the remote calls a first attempt on the
    original form makes under the same answers of the services: nothing
    remembers that an upload has already been made. *)
Theorem retry_after_failure_starts_over :
  forall (tcl_string : pyval -> result string) (environ : gmap string string)
         (o : Publish.outcomes) (f : Form.form),
    Spec.publish_ready f = true ->
    (forall url,
       ~ In (PublishSuccess url) (snd (Publish._publish_wallpaper_thread environ f o))) ->
    let f' := snd (Publish.publish_wallpaper tcl_string environ o f) in
    Spec.entered f' = Spec.entered f
    /\ Spec.publish_ready f' = true
    /\ forall o',
        fst (Publish.publish_wallpaper tcl_string environ o' f')
        = fst (Publish._publish_wallpaper_thread environ f o').
Proof.
  intros tcl_string environ o f Hr Hno f'.
  assert (H : Spec.entered f' = Spec.entered f
              /\ Form.supabase_client f' = Form.supabase_client f
              /\ Form.r2_client f' = Form.r2_client f).
  { subst f'.
    destruct (FormMore.publish_wallpaper_cases tcl_string environ o f)
      as [(_ & ->) | (Hf & _)]; [|congruence]. cbn [snd].
    destruct (SessionMore.run_callbacks_kept tcl_string (Publish.e_bound o)
                (snd (Publish._publish_wallpaper_thread environ f o)) f) as (Hs & Hc & _).
    split; [|split; assumption].
    destruct (AfterMore.thread_scheduled_cases environ f o)
      as [(url & Hs') | (scheduled & e & Hc' & Hs')]; rewrite Hs' in *.
    - exfalso. apply (Hno url). apply in_or_app. right. left. reflexivity.
    - apply (PublishFacts.run_failure_fields tcl_string (Publish.e_bound o) scheduled e f Hc'). }
  destruct H as (He & Hs & Hc).
  assert (Hr' : Spec.publish_ready f' = true)
    by (rewrite (AfterMore.publish_ready_entered f f' He); exact Hr).
  split; [exact He|]. split; [exact Hr'|].
  intros o'.
  destruct (FormMore.publish_wallpaper_cases tcl_string environ o' f')
    as [(_ & ->) | (Hf & _)]; [|congruence]. cbn [fst].
  rewrite (AfterMore.thread_reads_fields environ f f' o' He Hs Hc). reflexivity.
Qed.

Lemma retry_after_failure_witness :
  Spec.entered
    (snd (Publish.publish_wallpaper Samples.no_text Samples.dotenv_seven
            Samples.no_row_back Samples.filled))
  = Spec.entered Samples.filled.
Proof.
  refine (proj1
    (retry_after_failure_starts_over Samples.no_text Samples.dotenv_seven
       Samples.no_row_back Samples.filled _ _)).
  - vm_compute. reflexivity.
  - intros url. vm_compute. intros H.
    repeat (destruct H as [H|H]; [discriminate H|]). exact H.
Defined.

(** X21. A generation that fills the form re-evaluates the publish
    button: after a result with a title and a category, the button is
    enabled exactly when an image is selected and the generated title and
    category are not blank. *)
Theorem generated_metadata_enables_publish :
  forall (tcl_string : pyval -> result string) (title category : string)
         (description : option string) (tags : option (list string)) (f : Form.form),
    Form.publish_btn
      (Ai._update_metadata_ui tcl_string
         (Spec.describe_result (Some title) description (Some category) tags) f)
    = Form.NORMAL
    <-> Spec.image_selected f
        /\ PyStr.strip title <> "" /\ PyStr.strip category <> "".
Proof.
  intros tcl_string title category description tags f.
  destruct (MetadataFacts.describe_result_get (Some title) description (Some category) tags)
    as (d & -> & Gt & Gd & Gc & Gg).
  assert (Hj : Ai.join_tags (dict_get d "tags" (PyList []))
               = Ok (PyStr.join ", " (Spec.tags_or_none tags)))
    by (rewrite Gg; apply MetadataFacts.join_tags_strs).
  destruct (MetadataFacts.update_metadata_ui_ok tcl_string d title category
              (Spec.or_empty description) (PyStr.join ", " (Spec.tags_or_none tags))
              f Gt Gc Gd Hj) as (Ht & Hc & _).
  destruct (SessionMore.update_metadata_ui_kept tcl_string (PyDict d) f)
    as (_ & _ & _ & Hp).
  cbv zeta in Ht, Hc.
  assert (Hsync : Form.publish_btn (Ai._update_metadata_ui tcl_string (PyDict d) f)
                  = Spec.btn_of
                      (Spec.publish_ready (Ai._update_metadata_ui tcl_string (PyDict d) f))).
  { unfold Ai._update_metadata_ui. rewrite Gt, Gc, Gd, Hj. cbv zeta. cbn [Ai.widget_text].
    apply AfterMore.publish_in_sync_check. }
  rewrite Hsync, ReadyFacts.btn_of_normal, ReadyFacts.publish_ready_iff, Ht, Hc.
  unfold Spec.image_selected. rewrite Hp. reflexivity.
Qed.
